(** * audible-downloader: a shallow embedding of the acquisition pipeline

    The development follows [audible-downloader.py]: the ASIN validator, the
    listing parser, the voucher reader, the ffmpeg invocations, the
    companion-file heuristic, the single-book pipeline [process_book] and the
    paginated library browser.

    Python strings are modelled by [string]; a character is one of the first
    256 code points.  External programs, [Path.glob] and [json.loads] are
    parameters of the model. *)

From Stdlib Require Import ZArith Ascii String List Bool DecimalString.
From stdpp Require Import base gmap strings list.

Local Open Scope string_scope.
Local Open Scope list_scope.
Local Open Scope Z_scope.

(** ** Python's [str] methods used by the script *)

Module Py.

Definition LF : ascii := "010"%char.

(** [str.isspace] on one character, for code points below 256. *)
Definition isspace (c : ascii) : bool :=
  let n := N_of_ascii c in
  ((9 <=? n) && (n <=? 13) || (28 <=? n) && (n <=? 32) || (n =? 133) || (n =? 160))%N.

Fixpoint lstrip (s : string) : string :=
  match s with
  | String c s' => if isspace c then lstrip s' else s
  | EmptyString => EmptyString
  end.

Fixpoint rstrip (s : string) : string :=
  match s with
  | EmptyString => EmptyString
  | String c s' =>
      match rstrip s' with
      | EmptyString => if isspace c then EmptyString else String c EmptyString
      | r => String c r
      end
  end.

(** [s.strip()] *)
Definition strip (s : string) : string := rstrip (lstrip s).

(** The text before and after the first [sep] of [s], when there is one. *)
Fixpoint partition (sep : ascii) (s : string) : option (string * string) :=
  match s with
  | EmptyString => None
  | String c s' =>
      if Ascii.eqb c sep then Some (EmptyString, s')
      else match partition sep s' with
           | Some (a, b) => Some (String c a, b)
           | None => None
           end
  end.

(** [s.split(sep, maxsplit)] for a one-character separator. *)
Fixpoint split_max (sep : ascii) (maxsplit : nat) (s : string) : list string :=
  match maxsplit with
  | O => [s]
  | S m =>
      match partition sep s with
      | Some (a, b) => a :: split_max sep m b
      | None => [s]
      end
  end.

(** [s.split(sep)] for a one-character separator. *)
Fixpoint split (sep : ascii) (s : string) : list string :=
  match s with
  | EmptyString => [EmptyString]
  | String c s' =>
      if Ascii.eqb c sep then EmptyString :: split sep s'
      else match split sep s' with
           | h :: t => String c h :: t
           | [] => [String c EmptyString]
           end
  end.

(** [s.startswith(p)] *)
Fixpoint startswith (p s : string) : bool :=
  match p, s with
  | EmptyString, _ => true
  | String a p', String b s' => Ascii.eqb a b && startswith p' s'
  | String _ _, EmptyString => false
  end.

(** [s[len(p):]] when [s] starts with [p]. *)
Fixpoint after_prefix (p s : string) : option string :=
  match p, s with
  | EmptyString, _ => Some s
  | String a p', String b s' => if Ascii.eqb a b then after_prefix p' s' else None
  | String _ _, EmptyString => None
  end.

(** [s.replace(a, b)] for one-character [a] and [b]. *)
Fixpoint replace (a b : ascii) (s : string) : string :=
  match s with
  | EmptyString => EmptyString
  | String c s' => String (if Ascii.eqb c a then b else c) (replace a b s')
  end.

(** [c.lower()] for code points below 256: A-Z, and the Latin-1 capitals
    other than the multiplication sign. *)
Definition lower_char (c : ascii) : ascii :=
  let n := N_of_ascii c in
  if ((65 <=? n) && (n <=? 90) || (192 <=? n) && (n <=? 222) && negb (n =? 215))%N
  then ascii_of_N (n + 32) else c.

Fixpoint lower (s : string) : string :=
  match s with
  | EmptyString => EmptyString
  | String c s' => String (lower_char c) (lower s')
  end.

Definition is_ascii_digit (c : ascii) : bool :=
  let n := N_of_ascii c in ((48 <=? n) && (n <=? 57))%N.

(** [c.isdigit()] for code points below 256: besides 0-9, the superscripts
    two, three and one carry the Unicode digit property. *)
Definition isdigit_char (c : ascii) : bool :=
  let n := N_of_ascii c in
  is_ascii_digit c || ((n =? 178) || (n =? 179) || (n =? 185))%N.

Fixpoint all_chars (p : ascii -> bool) (s : string) : bool :=
  match s with
  | EmptyString => true
  | String c s' => p c && all_chars p s'
  end.

(** [s.isdigit()]: false on the empty string. *)
Definition isdigit (s : string) : bool :=
  match s with
  | EmptyString => false
  | _ => all_chars isdigit_char s
  end.

Fixpoint int_digits (acc : Z) (s : string) : option Z :=
  match s with
  | EmptyString => Some acc
  | String c s' =>
      if is_ascii_digit c
      then int_digits (10 * acc + Z.of_N (N_of_ascii c - 48)) s'
      else None
  end.

(** [int(s)] on a string for which [s.isdigit()] holds: the superscript
    digits are refused with [ValueError] ([None] here). *)
Definition int (s : string) : option Z :=
  match s with
  | EmptyString => None
  | _ => int_digits 0 s
  end.

(** [str(n)] for an [int]. *)
Definition str_of_int (n : Z) : string := NilZero.string_of_int (Z.to_int n).

(** [sep.join(l)] *)
Definition join (sep : string) (l : list string) : string := String.concat sep l.

(** [l[start:stop]] with Python's treatment of negative and overlong
    indices. *)
Definition slice {A} (l : list A) (start stop : Z) : list A :=
  let n := Z.of_nat (List.length l) in
  let norm i := if i <? 0 then Z.max 0 (i + n) else Z.min i n in
  let s := norm start in
  let e := norm stop in
  firstn (Z.to_nat (e - s)) (skipn (Z.to_nat s) l).

(** [s[:k]] for [0 <= k]. *)
Fixpoint take (k : nat) (s : string) : string :=
  match k, s with
  | S k', String c s' => String c (take k' s')
  | _, _ => EmptyString
  end.

(** [s.rfind(c)]: the index of the last [c], when there is one. *)
Fixpoint rfind (c : ascii) (s : string) : option nat :=
  match s with
  | EmptyString => None
  | String a s' =>
      match rfind c s' with
      | Some i => Some (S i)
      | None => if Ascii.eqb a c then Some O else None
      end
  end.

End Py.

(** ** The fragment of [re] used by [get_related_files] *)

Module Re.

Inductive regex : Type :=
| Lit (s : string)            (* literal text *)
| DotStar                     (* [.*]: greedy, and [.] refuses a line feed *)
| Alt (r1 r2 : regex)         (* [r1|r2], left alternative first *)
| Cat (r1 r2 : regex)
| Eol.                        (* [$] without MULTILINE *)

(** [$] holds at the end of the text and just before a final line feed. *)
Definition at_eol (s : string) : bool :=
  match s with
  | EmptyString => true
  | String c EmptyString => Ascii.eqb c Py.LF
  | _ => false
  end.

(** [.*] followed by the continuation [k]: longest run first. *)
Fixpoint dotstar (k : string -> bool) (s : string) : bool :=
  match s with
  | EmptyString => k EmptyString
  | String c s' => if Ascii.eqb c Py.LF then k s else dotstar k s' || k s
  end.

(** Backtracking match of [r] at the start of [s]; [k] decides on the rest. *)
Fixpoint matches (r : regex) (k : string -> bool) (s : string) : bool :=
  match r with
  | Lit l => match Py.after_prefix l s with Some rest => k rest | None => false end
  | DotStar => dotstar k s
  | Alt a b => matches a k s || matches b k s
  | Cat a b => matches a (matches b k) s
  | Eol => at_eol s && k s
  end.

(** [re.search(r, s).start()]: the leftmost position where [r] matches. *)
Fixpoint search_from (r : regex) (pos : nat) (s : string) : option nat :=
  if matches r (fun _ => true) s then Some pos
  else match s with
       | EmptyString => None
       | String _ s' => search_from r (S pos) s'
       end.

Definition search (r : regex) (s : string) : option nat := search_from r O s.

End Re.

(** ** validate_asin *)

Definition validate_asin (asin : string) : bool :=
  (String.length asin =? 10)%nat && Py.startswith "B" asin.

(** ** The parts of [pathlib] used by the script

    A path is its list of components; the last one is the file name.  The
    names the script builds hold no separator, so [p / name] appends one
    component. *)

Module Path.

Definition t : Type := list string.

Definition name (p : t) : string := List.last p "".

Definition parent (p : t) : t := removelast p.

(** [p / child] *)
Definition div (p : t) (child : string) : t := p ++ [child].

(** Where the suffix of a file name starts: the last dot, unless it is the
    first or the last character ([0 < i < len(name) - 1]). *)
Definition suffix_start (n : string) : option nat :=
  match Py.rfind "." n with
  | Some i => if ((0 <? i) && (S i <? String.length n))%nat then Some i else None
  | None => None
  end.

Definition stem (p : t) : string :=
  let n := name p in
  match suffix_start n with
  | Some i => Py.take i n
  | None => n
  end.

(** [p.with_suffix(suffix)]; [None] stands for the [ValueError] raised on a
    path with an empty name. *)
Definition with_suffix (suffix : string) (p : t) : option t :=
  if String.eqb (name p) "" then None
  else Some (div (parent p) (stem p +:+ suffix)).

(** [str(p)] *)
Definition str (p : t) : string :=
  match p with
  | [] => "."
  | _ => Py.join "/" p
  end.

(** The path itself and its ancestors, nearest the root first. *)
Definition lineage (p : t) : list t :=
  map (fun k => firstn k p) (seq 1 (List.length p)).

End Path.

(** ** Values produced by [json.loads] *)

#[local] Set Warnings "-register-all".

Inductive json : Type :=
| JNull
| JBool (b : bool)
| JInt (n : Z)
| JFloat (mantissa exponent : Z)
| JString (s : string)
| JArray (items : list json)
| JObject (fields : gmap string json).

(** Python's truth value of a decoded JSON value. *)
Definition truthy (v : json) : bool :=
  match v with
  | JNull => false
  | JBool b => b
  | JInt n => negb (n =? 0)
  | JFloat m _ => negb (m =? 0)
  | JString s => negb (String.eqb s "")
  | JArray l => match l with [] => false | _ => true end
  | JObject m => negb (bool_decide (m = ∅))
  end.

Definition type_name (v : json) : string :=
  match v with
  | JNull => "NoneType"
  | JBool _ => "bool"
  | JInt _ => "int"
  | JFloat _ _ => "float"
  | JString _ => "str"
  | JArray _ => "list"
  | JObject _ => "dict"
  end.

(** ** Exceptions, terminal output and the world *)

Inductive exn : Type :=
| ClickException (message : string)
| CalledProcessError (cmd : list string) (returncode : Z) (stderr : string)
| PyError (class message : string).

(** [str(e)]; the command of a [CalledProcessError] is shown as a list of
    quoted words. *)
Definition str_of_exn (e : exn) : string :=
  match e with
  | ClickException m => m
  | CalledProcessError cmd rc _ =>
      "Command [" +:+ Py.join ", " (map (fun a => "'" +:+ a +:+ "'") cmd)
      +:+ "] returned non-zero exit status " +:+ Py.str_of_int rc +:+ "."
  | PyError _ m => m
  end.

Inductive event : Type :=
| Echo (message : string)                                  (* click.echo *)
| Secho (message fg : string)                              (* click.secho *)
| EchoFileSize (bytes : Z)          (* "File size: {bytes / 2**20:.2f} MB" *)
| ConsolePrint (markup : string)                           (* console.print *)
| ConsoleTable (title : string) (rows : list (list string))
| AskConfirm (text : string)                               (* click.confirm *)
| AskPrompt (text : string).                               (* click.prompt *)

(** What [subprocess.run] reports: a finished process, or the exception
    raised when it could not be started. *)
Inductive run_result : Type :=
| Completed (returncode : Z) (stdout stderr : string)
| NotStarted (e : exn).

(** The file store maps the path of each regular file to its content;
    directories are implicit. *)
Record world : Type := World {
  files : gmap Path.t string;
  output : list event;              (* what the operator has been shown *)
  confirms : list bool;             (* pending answers to click.confirm *)
  prompts : list string;            (* pending answers to click.prompt *)
  launched : list (list string);    (* external commands started so far *)
  rich_installed : bool
}.

Definition set_files (f : gmap Path.t string) (w : world) : world :=
  World f (output w) (confirms w) (prompts w) (launched w) (rich_installed w).

Definition add_output (e : event) (w : world) : world :=
  World (files w) (output w ++ [e]) (confirms w) (prompts w) (launched w)
        (rich_installed w).

Definition set_confirms (l : list bool) (w : world) : world :=
  World (files w) (output w) l (prompts w) (launched w) (rich_installed w).

Definition set_prompts (l : list string) (w : world) : world :=
  World (files w) (output w) (confirms w) l (launched w) (rich_installed w).

Definition add_launched (cmd : list string) (w : world) : world :=
  World (files w) (output w) (confirms w) (prompts w) (launched w ++ [cmd])
        (rich_installed w).

(** How a call ends: a value, an exception, or [sys.exit(code)]
    ([SystemExit] passes through [except Exception]). *)
Inductive outcome (A : Type) : Type :=
| Ret (a : A)
| Raise (e : exn)
| Exit (code : Z).

Arguments Ret {A} a.
Arguments Raise {A} e.
Arguments Exit {A} code.

Definition M (A : Type) : Type := world -> outcome A * world.

Definition ret {A} (a : A) : M A := fun w => (Ret a, w).

Definition bind {A B} (m : M A) (k : A -> M B) : M B :=
  fun w =>
    match m w with
    | (Ret a, w') => k a w'
    | (Raise e, w') => (Raise e, w')
    | (Exit c, w') => (Exit c, w')
    end.

Definition raise {A} (e : exn) : M A := fun w => (Raise e, w).

Definition sys_exit {A} (code : Z) : M A := fun w => (Exit code, w).

(** [try: m  except Exception as e: h e] *)
Definition try_except {A} (m : M A) (h : exn -> M A) : M A :=
  fun w =>
    match m w with
    | (Raise e, w') => h e w'
    | r => r
    end.

Declare Scope py_scope.
Delimit Scope py_scope with py.
Notation "x <- c1 ;; c2" := (bind c1 (fun x => c2))
  (at level 100, c1 at next level, right associativity) : py_scope.
Notation "c1 ;; c2" := (bind c1 (fun _ => c2))
  (at level 100, right associativity) : py_scope.
Local Open Scope py_scope.

Definition emit (e : event) : M unit := fun w => (Ret tt, add_output e w).

Definition echo (message : string) : M unit := emit (Echo message).

Definition secho (message fg : string) : M unit := emit (Secho message fg).

(** [p.exists()] *)
Definition path_exists (p : Path.t) : M bool :=
  fun w => (Ret (bool_decide (is_Some (files w !! p))), w).

(** [p.stat().st_size] *)
Definition st_size (p : Path.t) : M Z :=
  fun w =>
    match files w !! p with
    | Some data => (Ret (Z.of_nat (String.length data)), w)
    | None => (Raise (PyError "FileNotFoundError" (Path.str p)), w)
    end.

(** [p.read_text()] *)
Definition read_text (p : Path.t) : M string :=
  fun w =>
    match files w !! p with
    | Some data => (Ret data, w)
    | None => (Raise (PyError "FileNotFoundError" (Path.str p)), w)
    end.

(** [p.unlink()]: removing a file that exists succeeds. *)
Definition unlink (p : Path.t) : M unit :=
  fun w =>
    match files w !! p with
    | Some _ => (Ret tt, set_files (delete p (files w)) w)
    | None => (Raise (PyError "FileNotFoundError" (Path.str p)), w)
    end.

(** [p.mkdir(parents=True, exist_ok=True)]: refused when [p] or one of its
    ancestors is a regular file. *)
Definition mkdir_parents (p : Path.t) : M unit :=
  fun w =>
    if forallb (fun q => negb (bool_decide (is_Some (files w !! q)))) (Path.lineage p)
    then (Ret tt, w)
    else (Raise (PyError "FileExistsError" (Path.str p)), w).

(** [click.confirm(text, default=True)]; [click.Abort] at the end of input. *)
Definition confirm (text : string) : M bool :=
  fun w =>
    match confirms w with
    | b :: rest => (Ret b, set_confirms rest (add_output (AskConfirm text) w))
    | [] => (Raise (PyError "Abort" ""), add_output (AskConfirm text) w)
    end.

(** [click.prompt(text, type=str, default="")] *)
Definition prompt (text : string) : M string :=
  fun w =>
    match prompts w with
    | s :: rest => (Ret s, set_prompts rest (add_output (AskPrompt text) w))
    | [] => (Raise (PyError "Abort" ""), add_output (AskPrompt text) w)
    end.

(** [d.get(key, default)] on a decoded value: only a dict has [get]. *)
Definition dict_get (d : json) (key : string) (default : json) : M json :=
  match d with
  | JObject m => ret (match m !! key with Some v => v | None => default end)
  | _ => raise (PyError "AttributeError"
                  ("'" +:+ type_name d +:+ "' object has no attribute 'get'"))
  end.

(** A catalog entry: [{'asin': .., 'title': .., 'authors': [{'name': ..}]}]. *)
Record author : Type := Author { name : string }.

Record book : Type := Book {
  asin : string;
  title : string;
  authors : list author
}.

Record config : Type := Config {
  default_sort : option string;     (* [Settings] default_sort, when set *)
  page_size : option Z              (* [Settings] page_size, when set *)
}.

(** How one turn of the browser's [while True] ends. *)
Inductive control : Type :=
| Continue (page_num : Z)
| Break.

(** ** Functions that launch nothing *)

(** One turn of the loop of [parse_library_list_output]. *)
Definition parse_library_line (library_data : list book) (line : string)
  : M (list book) :=
  if String.eqb line "" then ret library_data
  else
    match map Py.strip (Py.split_max ":" 2 line) with
    | [asin; author; title] =>
        ret (library_data ++ [Book asin title [Author author]])
    | _ =>
        secho ("Warning: Could not parse library line: '" +:+ line +:+ "'") "yellow" ;;
        ret library_data
    end.

Fixpoint for_each {A B} (body : A -> B -> M A) (acc : A) (l : list B) : M A :=
  match l with
  | [] => ret acc
  | x :: rest => acc' <- body acc x ;; for_each body acc' rest
  end.

Definition parse_library_list_output (text_output : string) : M (list book) :=
  for_each parse_library_line [] (Py.split Py.LF (Py.strip text_output)).

(** The pattern of [re.search]: a group of the two alternatives [-AAX.*]
    and [-LC.*], followed by [$]. *)
Definition marker_pattern : Re.regex :=
  Re.Cat (Re.Alt (Re.Cat (Re.Lit "-AAX") Re.DotStar)
                 (Re.Cat (Re.Lit "-LC") Re.DotStar))
         Re.Eol.

(** The first half of [get_related_files]: the base name of a stem. *)
Definition base_name_of (stem : string) : M string :=
  match Re.search marker_pattern stem with
  | None =>
      secho ("Warning: Could not determine base name from '" +:+ stem
             +:+ "'. Cleanup may be incomplete.") "yellow" ;;
      ret stem
  | Some start => ret (Py.take start stem)
  end.

Definition other_sort (sort_order : string) : string :=
  if String.eqb sort_order "newest_first" then "oldest_first" else "newest_first".

(** The sort dialogue of [browse_and_download_mode]. *)
Definition apply_sort (cfg : config) (library_data : list book) : M (list book) :=
  let sort_order := default "newest_first" (default_sort cfg) in
  yes <- confirm ("Sort by '" +:+ Py.replace "_" " " sort_order +:+ "'?") ;;
  if (yes : bool) then
    ret (if String.eqb sort_order "newest_first" then rev library_data
         else library_data)
  else
    let current_sort := other_sort sort_order in
    let sorted := if String.eqb current_sort "newest_first" then rev library_data
                  else library_data in
    echo ("Sorting by " +:+ Py.replace "_" " " current_sort +:+ ".") ;;
    ret sorted.

(** The rows of the table: [enumerate(page_data, start=start_index)]. *)
Fixpoint table_rows (i : Z) (page_data : list book) : list (list string) :=
  match page_data with
  | [] => []
  | item :: rest =>
      [Py.str_of_int (i + 1); title item;
       Py.join ", " (map name (authors item)); asin item]
      :: table_rows (i + 1) rest
  end.

Definition table_title (library_data : list book) (page_size page_num : Z)
  : string :=
  "Your Audible Library - Page " +:+ Py.str_of_int (page_num + 1) +:+ " of "
  +:+ Py.str_of_int (- (- Z.of_nat (length library_data) / page_size)).

Definition NL : string := String Py.LF "".

(** ** Notions used to state the voucher contract

    These follow the wording of the specification, not the code: the nested
    field [content_license -> license_response -> leaf] of a voucher, which
    is absent as soon as one step of the path is; what counts as absent or
    empty; and the vouchers in which every level that is present is an
    object. *)

Definition field (v : json) (key : string) : option json :=
  match v with
  | JObject m => m !! key
  | _ => None
  end.

Definition nested_field (v : json) (leaf : string) : option json :=
  match field v "content_license" with
  | Some license =>
      match field license "license_response" with
      | Some response => field response leaf
      | None => None
      end
  | None => None
  end.

Definition absent_or_empty (o : option json) : bool :=
  match o with
  | Some v => negb (truthy v)
  | None => true
  end.

Definition object_or_absent (o : option json) : bool :=
  match o with
  | Some (JObject _) | None => true
  | Some _ => false
  end.

Definition nested_objects (v : json) : bool :=
  match v with
  | JObject _ =>
      object_or_absent (field v "content_license") &&
      match field v "content_license" with
      | Some license => object_or_absent (field license "license_response")
      | None => true
      end
  | _ => false
  end.

(** The voucher of the specification's example. *)
Definition sample_voucher : json :=
  JObject {[ "content_license" :=
    JObject {[ "license_response" :=
      JObject (<[ "key" := JString "AB12" ]> {[ "iv" := JString "CD34" ]}) ]} ]}.

(** A voucher whose license response is [null]. *)
Definition refused_voucher : json :=
  JObject {[ "content_license" := JObject {[ "license_response" := JNull ]} ]}.

(** A voucher that lacks the [key] field. *)
Definition keyless_voucher : json :=
  JObject {[ "content_license" :=
    JObject {[ "license_response" := JObject {[ "iv" := JString "CD34" ]} ]} ]}.

(** ** A sample environment, for the worked examples *)

Definition sample_dir : Path.t := ["audiobooks"].

Definition sample_aaxc : Path.t := ["audiobooks"; "book-AAX_44_128.aaxc"].

Definition sample_voucher_file : Path.t := ["audiobooks"; "book-AAX_44_128.voucher"].

Definition sample_m4b : Path.t := ["audiobooks"; "book-AAX_44_128.m4b"].

Definition sample_library : list book :=
  [Book "B000000001" "First" [Author "Ann"];
   Book "B000000002" "Second" [Author "Bob"];
   Book "B000000003" "Third" [Author "Cy"]].

(** External programs that download one book with its voucher, decrypt it,
    and answer the validation with the exit code [verify_code]. *)
Definition sample_run (verify_code : Z) (cmd : list string)
    (fs : gmap Path.t string) : run_result * gmap Path.t string :=
  match cmd with
  | "audible" :: "download" :: _ =>
      (Completed 0 "" "",
       <[ sample_aaxc := "encrypted" ]> (<[ sample_voucher_file := "voucher" ]> fs))
  | "ffmpeg" :: "-y" :: _ => (Completed 0 "" "", <[ sample_m4b := "audio" ]> fs)
  | "ffmpeg" :: "-v" :: _ => (Completed verify_code "" "", fs)
  | _ => (NotStarted (PyError "FileNotFoundError" "No such file or directory"), fs)
  end.

(** A directory listing that knows the sample artifact only. *)
Definition sample_glob (fs : gmap Path.t string) (directory : Path.t)
    (pattern : string) : list Path.t :=
  if String.eqb pattern "*.aaxc"
  then List.filter (fun f => bool_decide (is_Some (fs !! f))) [sample_aaxc]
  else [].

(** A decoder that reads every non-empty text as [v]. *)
Definition sample_loads (v : json) (text : string) : exn + json :=
  if String.eqb text ""
  then inl (PyError "JSONDecodeError" "Expecting value: line 1 column 1 (char 0)")
  else inr v.

Definition empty_world : world := World ∅ [] [] [] [] true.

Definition voucher_world : world :=
  World {[ sample_voucher_file := "voucher" ]} [] [] [] [] true.

(** ** The pipeline, over the external collaborators

    [subprocess_run cmd fs] is what running [cmd] on the file store [fs]
    reports and leaves behind; [glob fs dir pattern] is [dir.glob(pattern)];
    [json_loads] is [json.loads]. *)

Section Pipeline.

Variable subprocess_run :
  list string -> gmap Path.t string -> run_result * gmap Path.t string.
Variable glob : gmap Path.t string -> Path.t -> string -> list Path.t.
Variable json_loads : string -> exn + json.

(** [subprocess.run(cmd, capture_output=True, text=True)] *)
Definition run (cmd : list string) : M run_result :=
  fun w =>
    let r := subprocess_run cmd (files w) in
    (Ret (fst r), set_files (snd r) (add_launched cmd w)).

(** [run_command]: the same with [check=True]. *)
Definition run_command (cmd : list string) : M (string * string) :=
  r <- run cmd ;;
  match r with
  | NotStarted e => raise e
  | Completed rc out err =>
      if rc =? 0 then ret (out, err) else raise (CalledProcessError cmd rc err)
  end.

(** [if profile: cmd.extend(['--profile', profile])] *)
Definition profile_args (profile : option string) : list string :=
  match profile with
  | Some p => if String.eqb p "" then [] else ["--profile"; p]
  | None => []
  end.

Definition download_cmd (asin : string) (output_dir : Path.t)
    (profile : option string) : list string :=
  ["audible"] ++ profile_args profile ++
  ["download"; "--asin"; asin; "--output-dir"; Path.str output_dir;
   "--aaxc"; "--quality"; "best"; "--resolve-podcasts";
   "--chapter"; "--cover"; "--no-confirm"].

Definition download_audiobook (asin : string) (output_dir : Path.t)
    (profile : option string) : M (bool * option string) :=
  try_except
    (run_command (download_cmd asin output_dir profile) ;; ret (true, None))
    (fun e =>
       match e with
       | CalledProcessError _ _ err =>
           ret (false, Some ("Download failed:" +:+ NL +:+ err))
       | _ => raise e
       end).

Definition with_suffix (suffix : string) (p : Path.t) : M Path.t :=
  match Path.with_suffix suffix p with
  | Some q => ret q
  | None => raise (PyError "ValueError"
                     ("PosixPath('" +:+ Path.str p +:+ "') has an empty name"))
  end.

Definition loads (text : string) : M json :=
  match json_loads text with
  | inr v => ret v
  | inl e => raise e
  end.

Definition get_aaxc_credentials (voucher_file : Path.t) : M (json * json) :=
  present <- path_exists voucher_file ;;
  if negb present
  then raise (ClickException ("Voucher file not found: " +:+ Path.str voucher_file))
  else
    text <- read_text voucher_file ;;
    voucher_data <- loads text ;;
    license <- dict_get voucher_data "content_license" (JObject ∅) ;;
    content_license <- dict_get license "license_response" (JObject ∅) ;;
    key <- dict_get content_license "key" JNull ;;
    iv <- dict_get content_license "iv" JNull ;;
    if negb (truthy key) || negb (truthy iv)
    then raise (ClickException "Could not find key/iv in voucher file")
    else ret (key, iv).

Definition decrypt_cmd (key iv : string) (input_file output_file : Path.t)
  : list string :=
  ["ffmpeg"; "-y"; "-audible_key"; key; "-audible_iv"; iv;
   "-i"; Path.str input_file; "-map"; "0:a"; "-map"; "0:t?";
   "-c"; "copy"; "-f"; "mp4"; Path.str output_file].

(** The command line of the decryption; [subprocess.run] refuses an
    argument that is not a [str] with [TypeError]. *)
Definition decrypt_args (credentials : json * json)
    (input_file output_file : Path.t) : M (list string) :=
  match credentials with
  | (JString key, JString iv) => ret (decrypt_cmd key iv input_file output_file)
  | (JString _, v) | (v, _) =>
      raise (PyError "TypeError"
               ("expected str, bytes or os.PathLike object, not " +:+ type_name v))
  end.

Definition decrypt_audiobook (input_file output_dir : Path.t)
    (credentials : json * json) : M (bool * option Path.t) :=
  target <- with_suffix ".m4b" input_file ;;
  let output_file := Path.div output_dir (Path.name target) in
  try_except
    (cmd <- decrypt_args credentials input_file output_file ;;
     process <- run cmd ;;
     match process with
     | NotStarted e => raise e
     | Completed returncode _ stderr =>
         if negb (returncode =? 0)
         then secho ("FFmpeg error: " +:+ stderr) "red" ;; ret (false, None)
         else
           present <- path_exists output_file ;;
           empty <- (if (present : bool)
                     then size <- st_size output_file ;; ret (size =? 0)
                     else ret true) ;;
           if (empty : bool)
           then secho "Error: FFmpeg created an empty output file." "red" ;;
                ret (false, None)
           else ret (true, Some output_file)
     end)
    (fun e =>
       secho ("Decryption error: " +:+ str_of_exn e) "red" ;; ret (false, None)).

Definition find_aaxc_file (directory : Path.t) : M (option Path.t) :=
  fun w => (Ret (head (glob (files w) directory "*.aaxc")), w).

Definition glob_in (directory : Path.t) (pattern : string) : M (list Path.t) :=
  fun w => (Ret (glob (files w) directory pattern), w).

Definition existing (l : list Path.t) : M (list Path.t) :=
  fun w => (Ret (List.filter (fun f => bool_decide (is_Some (files w !! f))) l), w).

Definition get_related_files (aaxc_file : Path.t) : M (list Path.t) :=
  let directory := Path.parent aaxc_file in
  let stem := Path.stem aaxc_file in
  base_name <- base_name_of stem ;;
  voucher <- with_suffix ".voucher" aaxc_file ;;
  jpg <- glob_in directory (base_name +:+ "*.[jJ][pP][gG]") ;;
  jpeg <- glob_in directory (base_name +:+ "*.[jJ][pP][eE][gG]") ;;
  existing ([aaxc_file; voucher;
             Path.div directory (base_name +:+ "-chapters.json")] ++ jpg ++ jpeg).

Definition cleanup_files (files_to_remove : list Path.t) : M unit :=
  echo (NL +:+ "Cleaning up intermediate files...") ;;
  for_each
    (fun _ file =>
       try_except
         (unlink file ;; echo ("Removed: " +:+ Path.name file))
         (fun e => secho ("Warning: Could not remove " +:+ Path.name file
                          +:+ ": " +:+ str_of_exn e) "yellow"))
    tt files_to_remove.

Definition verify_cmd (file_path : Path.t) : list string :=
  ["ffmpeg"; "-v"; "error"; "-i"; Path.str file_path; "-f"; "null"; "-"].

Definition verify_decrypted_file (file_path : Path.t) : M bool :=
  try_except
    (process <- run (verify_cmd file_path) ;;
     match process with
     | NotStarted e => raise e
     | Completed returncode _ _ => ret (returncode =? 0)
     end)
    (fun _ => ret false).

(** [process_book] up to and including the decryption: the artifact and the
    decrypted file. *)
Definition acquire (asin : string) (output_dir : Path.t)
    (profile : option string) : M (Path.t * Path.t) :=
  if negb (validate_asin asin)
  then secho ("Error: Invalid ASIN format: " +:+ asin) "red" ;; sys_exit 1
  else
    mkdir_parents output_dir ;;
    echo (NL +:+ "Downloading audiobook with ASIN: " +:+ asin) ;;
    downloaded <- download_audiobook asin output_dir profile ;;
    if negb (fst downloaded)
    then secho ("Error: " +:+ default "None" (snd downloaded)) "red" ;; sys_exit 1
    else
      found <- find_aaxc_file output_dir ;;
      match found with
      | None =>
          secho "Error: No AAXC file found in output directory after download." "red" ;;
          sys_exit 1
      | Some aaxc_file =>
          echo ("Found AAXC file: " +:+ Path.name aaxc_file) ;;
          credentials <-
            try_except
              (voucher <- with_suffix ".voucher" aaxc_file ;;
               c <- get_aaxc_credentials voucher ;;
               echo "Successfully extracted decryption credentials." ;;
               ret c)
              (fun e => secho ("Error: " +:+ str_of_exn e) "red" ;; sys_exit 1) ;;
          echo (NL +:+ "Decrypting audiobook...") ;;
          decrypted <- decrypt_audiobook aaxc_file output_dir credentials ;;
          match decrypted with
          | (true, Some output_file) => ret (aaxc_file, output_file)
          | _ => secho "Error: Failed to decrypt audiobook." "red" ;; sys_exit 1
          end
      end.

(** [process_book] from the verification on. *)
Definition verify_and_finish (keep_files : bool) (aaxc_file output_file : Path.t)
  : M unit :=
  echo (NL +:+ "Verifying decrypted file...") ;;
  verified <- verify_decrypted_file output_file ;;
  if negb verified
  then
    secho "Error: Decrypted file verification failed." "red" ;;
    present <- path_exists output_file ;;
    (if (present : bool) then unlink output_file else ret tt) ;;
    sys_exit 1
  else
    (if negb keep_files
     then related <- get_related_files aaxc_file ;; cleanup_files related
     else echo (NL +:+ "Keeping all intermediate files as requested.")) ;;
    secho (NL +:+ "Process completed successfully!") "green" ;;
    echo ("Decrypted audiobook: " +:+ Path.name output_file) ;;
    present <- path_exists output_file ;;
    if (present : bool)
    then size <- st_size output_file ;; emit (EchoFileSize size)
    else ret tt.

Definition process_book (asin : string) (output_dir : Path.t)
    (keep_files : bool) (profile : option string) : M unit :=
  got <- acquire asin output_dir profile ;;
  verify_and_finish keep_files (fst got) (snd got).

(** *** The library browser *)

Definition rich_available : M bool := fun w => (Ret (rich_installed w), w).

(** The listing is fetched and parsed; a failed listing command or an empty
    listing ends the run. *)
Definition fetch_library (profile : option string) : M (list book) :=
  rich <- rich_available ;;
  if negb rich
  then secho "Error: 'rich' library is required. Install with 'pip install rich'" "red" ;;
       sys_exit 1
  else
    library_data <-
      try_except
        (result <- run_command (["audible"] ++ profile_args profile ++ ["library"; "list"]) ;;
         parse_library_list_output (fst result))
        (fun e =>
           match e with
           | CalledProcessError _ _ err =>
               emit (ConsolePrint
                       ("[bold red]Error: The 'audible library list' command failed.[/bold red]"
                        +:+ NL +:+ "[yellow]" +:+ err +:+ "[/yellow]")) ;;
               sys_exit 1
           | _ => raise e
           end) ;;
    match library_data with
    | [] =>
        emit (ConsolePrint
                "[bold red]Error: No books were found in your library output.[/bold red]") ;;
        sys_exit 1
    | _ => ret library_data
    end.

Definition prompt_text : string :=
  "Enter book # to download, (n)ext, (p)revious, or (q)uit".

(** One turn of the [while True] loop on the page [page_num]. *)
Definition browse_iteration (output_dir : Path.t) (keep_files : bool)
    (profile : option string) (library_data : list book) (page_size : Z)
    (page_num : Z) : M control :=
  let start_index := page_num * page_size in
  let end_index := start_index + page_size in
  let page_data := Py.slice library_data start_index end_index in
  match page_data with
  | [] => echo "No more books." ;; ret (Continue (page_num - 1))
  | _ =>
      emit (ConsoleTable (table_title library_data page_size page_num)
                         (table_rows start_index page_data)) ;;
      reply <- prompt prompt_text ;;
      let user_input := Py.lower reply in
      if Py.isdigit user_input then
        match Py.int user_input with
        | None =>
            raise (PyError "ValueError"
                     ("invalid literal for int() with base 10: '" +:+ user_input +:+ "'"))
        | Some choice =>
            if (1 <=? choice) && (choice <=? Z.of_nat (length library_data)) then
              match library_data !! Z.to_nat (choice - 1) with
              | Some book =>
                  echo (NL +:+ "You selected: '" +:+ title book +:+ "' (ASIN: "
                        +:+ asin book +:+ ")") ;;
                  process_book (asin book) output_dir keep_files profile ;;
                  ret Break
              | None => raise (PyError "IndexError" "list index out of range")
              end
            else secho "Invalid book number." "yellow" ;; ret (Continue page_num)
        end
      else if String.eqb user_input "n" then
        if end_index <? Z.of_nat (length library_data)
        then ret (Continue (page_num + 1))
        else echo "Already on the last page." ;; ret (Continue page_num)
      else if String.eqb user_input "p" then
        if 0 <? page_num
        then ret (Continue (page_num - 1))
        else echo "Already on the first page." ;; ret (Continue page_num)
      else if String.eqb user_input "q" then
        echo "Exiting library browser." ;; ret Break
      else secho "Invalid input." "yellow" ;; ret (Continue page_num)
  end.

(** The loop, for at most [fuel] turns; [None] when they do not suffice. *)
Fixpoint browse_loop (fuel : nat) (output_dir : Path.t) (keep_files : bool)
    (profile : option string) (library_data : list book) (page_size : Z)
    (page_num : Z) (w : world) : option (outcome unit * world) :=
  match fuel with
  | O => None
  | S fuel' =>
      match browse_iteration output_dir keep_files profile library_data
              page_size page_num w with
      | (Ret (Continue page_num'), w') =>
          browse_loop fuel' output_dir keep_files profile library_data
            page_size page_num' w'
      | (Ret Break, w') => Some (Ret tt, w')
      | (Raise e, w') => Some (Raise e, w')
      | (Exit c, w') => Some (Exit c, w')
      end
  end.

Definition browse_and_download_mode (fuel : nat) (output_dir : Path.t)
    (keep_files : bool) (profile : option string) (cfg : config) (w : world)
  : option (outcome unit * world) :=
  match (library_data <- fetch_library profile ;; apply_sort cfg library_data) w with
  | (Ret library_data, w') =>
      browse_loop fuel output_dir keep_files profile library_data
        (default 10 (page_size cfg)) 0 w'
  | (Raise e, w') => Some (Raise e, w')
  | (Exit c, w') => Some (Exit c, w')
  end.

(** The page indices the loop can be at: page 0, and whatever a turn
    continues with. *)
Inductive reachable (output_dir : Path.t) (keep_files : bool)
    (profile : option string) (library_data : list book) (page_size : Z)
  : Z -> Prop :=
| reach_start : reachable output_dir keep_files profile library_data page_size 0
| reach_turn page_num page_num' w w' :
    reachable output_dir keep_files profile library_data page_size page_num ->
    browse_iteration output_dir keep_files profile library_data page_size
      page_num w = (Ret (Continue page_num'), w') ->
    reachable output_dir keep_files profile library_data page_size page_num'.

(** ** Notions used to state further properties *)

(** A world with more output and nothing else changed. *)
Definition with_output (events : list event) (w : world) : world :=
  World (files w) (output w ++ events) (confirms w) (prompts w) (launched w)
        (rich_installed w).

(** The warning of [parse_library_list_output] for a line. *)
Definition unparsed (line : string) : event :=
  Secho ("Warning: Could not parse library line: '" +:+ line +:+ "'") "yellow".

(** A line of the listing, in the [ASIN: Author: Title] format that the
    docstring of [parse_library_list_output] names. *)
Definition listing_line (entry : string * string * string) : string :=
  let '(asin, author, title) := entry in
  asin +:+ ": " +:+ author +:+ ": " +:+ title.

(** The record that the parser builds from the three fields. *)
Definition entry_book (entry : string * string * string) : book :=
  let '(asin, author, title) := entry in Book asin title [Author author].

(** A field that [strip] leaves alone and that holds no line feed. *)
Definition tidy (f : string) : Prop :=
  Py.strip f = f /\ ~ In Py.LF (list_ascii_of_string f).

Definition tidy_entry (entry : string * string * string) : Prop :=
  let '(asin, author, title) := entry in
  tidy asin /\ tidy author /\ tidy title /\
  ~ In ":"%char (list_ascii_of_string asin) /\
  ~ In ":"%char (list_ascii_of_string author).

(** The world once the page is printed and the operator's reply is read. *)
Definition page_shown (library_data : list book) (page_size page_num : Z)
    (rest : list string) (w : world) : world :=
  set_prompts rest
    (add_output (AskPrompt prompt_text)
       (add_output
          (ConsoleTable (table_title library_data page_size page_num)
             (table_rows (page_num * page_size)
                (Py.slice library_data (page_num * page_size)
                   (page_num * page_size + page_size)))) w)).

(** What a turn does with the lower-cased reply. *)
Definition respond (output_dir : Path.t) (keep_files : bool)
    (profile : option string) (library_data : list book)
    (page_size page_num : Z) (user_input : string) : M control :=
  if Py.isdigit user_input then
    match Py.int user_input with
    | None =>
        raise (PyError "ValueError"
                 ("invalid literal for int() with base 10: '" +:+ user_input +:+ "'"))
    | Some choice =>
        if (1 <=? choice) && (choice <=? Z.of_nat (length library_data)) then
          match library_data !! Z.to_nat (choice - 1) with
          | Some chosen =>
              echo (NL +:+ "You selected: '" +:+ title chosen +:+ "' (ASIN: "
                    +:+ asin chosen +:+ ")") ;;
              process_book (asin chosen) output_dir keep_files profile ;;
              ret Break
          | None => raise (PyError "IndexError" "list index out of range")
          end
        else secho "Invalid book number." "yellow" ;; ret (Continue page_num)
    end
  else if String.eqb user_input "n" then
    if page_num * page_size + page_size <? Z.of_nat (length library_data)
    then ret (Continue (page_num + 1))
    else echo "Already on the last page." ;; ret (Continue page_num)
  else if String.eqb user_input "p" then
    if 0 <? page_num
    then ret (Continue (page_num - 1))
    else echo "Already on the first page." ;; ret (Continue page_num)
  else if String.eqb user_input "q" then
    echo "Exiting library browser." ;; ret Break
  else secho "Invalid input." "yellow" ;; ret (Continue page_num).

(** Whether the key and the initialisation vector are both of type [str]. *)
Definition both_strings (credentials : json * json) : bool :=
  match credentials with
  | (JString _, JString _) => true
  | _ => false
  end.

(** One turn of the loop of [cleanup_files]. *)
Definition cleanup_one (file : Path.t) : M unit :=
  try_except
    (unlink file ;; echo ("Removed: " +:+ Path.name file))
    (fun e => secho ("Warning: Could not remove " +:+ Path.name file
                     +:+ ": " +:+ str_of_exn e) "yellow").

(** The base name as a function of the stem. *)
Definition base_name (stem : string) : string :=
  match Re.search marker_pattern stem with
  | None => stem
  | Some start => Py.take start stem
  end.

(** The paths that [get_related_files] considers, before it keeps the
    existing ones. *)
Definition related_candidates (fs : gmap Path.t string) (aaxc_file voucher : Path.t)
  : list Path.t :=
  [aaxc_file; voucher;
   Path.div (Path.parent aaxc_file) (base_name (Path.stem aaxc_file) +:+ "-chapters.json")]
  ++ glob fs (Path.parent aaxc_file)
       (base_name (Path.stem aaxc_file) +:+ "*.[jJ][pP][gG]")
  ++ glob fs (Path.parent aaxc_file)
       (base_name (Path.stem aaxc_file) +:+ "*.[jJ][pP][eE][gG]").

(** The messages that close a successful run. *)
Definition report_success (output_file : Path.t) : M unit :=
  secho (NL +:+ "Process completed successfully!") "green" ;;
  echo ("Decrypted audiobook: " +:+ Path.name output_file) ;;
  present <- path_exists output_file ;;
  if (present : bool)
  then size <- st_size output_file ;; emit (EchoFileSize size)
  else ret tt.

(** The command line of the listing. *)
Definition listing_cmd (profile : option string) : list string :=
  ["audible"] ++ profile_args profile ++ ["library"; "list"].

(** The message printed when the listing command fails. *)
Definition listing_failed (stderr : string) : event :=
  ConsolePrint
    ("[bold red]Error: The 'audible library list' command failed.[/bold red]"
     +:+ NL +:+ "[yellow]" +:+ stderr +:+ "[/yellow]").

(** * Properties *)

(** Projections of an updated world. *)
Ltac world_simpl :=
  cbn [files output confirms prompts launched rich_installed
       set_files add_output set_confirms set_prompts add_launched fst snd] in *.

(** ** Strings *)

Lemma get_0_startswith (c : ascii) (s : string) :
  String.get 0 s = Some c <-> Py.startswith (String c "") s = true.
Proof.
  destruct s as [|a s]; simpl.
  - split; intro H; discriminate.
  - rewrite andb_true_r. split.
    + intros [= ->]. apply Ascii.eqb_refl.
    + intros H. apply Ascii.eqb_eq in H. now subst.
Qed.

Lemma validate_asin_spec (s : string) :
  validate_asin s = true <->
  String.length s = 10%nat /\ String.get 0 s = Some "B"%char.
Proof.
  unfold validate_asin. rewrite andb_true_iff, Nat.eqb_eq, get_0_startswith.
  reflexivity.
Qed.

Lemma chars_app (a b : string) :
  list_ascii_of_string (a +:+ b) = list_ascii_of_string a ++ list_ascii_of_string b.
Proof. induction a as [|c a IH]; simpl; [reflexivity | now rewrite IH]. Qed.

Lemma partition_first (sep : ascii) (a rest : string) :
  ~ In sep (list_ascii_of_string a) ->
  Py.partition sep (a +:+ String sep rest) = Some (a, rest).
Proof.
  induction a as [|c a IH]; simpl; intros Hnot.
  - now rewrite Ascii.eqb_refl.
  - destruct (Ascii.eqb c sep) eqn:E.
    + apply Ascii.eqb_eq in E. exfalso. apply Hnot. now left.
    + rewrite IH; [reflexivity | intros Hin; apply Hnot; now right].
Qed.

Lemma split_two_colons (a b c : string) :
  ~ In ":"%char (list_ascii_of_string a) ->
  ~ In ":"%char (list_ascii_of_string b) ->
  Py.split_max ":" 2 (a +:+ ":" +:+ b +:+ ":" +:+ c) = [a; b; c].
Proof.
  intros Ha Hb.
  change (a +:+ ":" +:+ b +:+ ":" +:+ c)
    with (a +:+ String ":" (b +:+ String ":" c)).
  cbn [Py.split_max].
  rewrite (partition_first ":" a (b +:+ String ":" c) Ha).
  now rewrite (partition_first ":" b c Hb).
Qed.

Lemma append_colon_nonempty (a rest : string) :
  String.eqb (a +:+ String ":" rest) "" = false.
Proof. destruct a; reflexivity. Qed.

(** ** The identifier validator *)

(** C10: a string of exactly ten characters whose first character is [B] is
    accepted whatever its other nine characters are, and two strings of the
    same length with the same first character are judged alike. *)
Theorem validate_asin_accepts_any_tail :
  (forall asin : string,
      String.length asin = 10%nat -> String.get 0 asin = Some "B"%char ->
      validate_asin asin = true) /\
  (forall a b : string,
      String.length a = String.length b -> String.get 0 a = String.get 0 b ->
      validate_asin a = validate_asin b).
Proof.
  split.
  - intros asin Hlen Hfirst. apply validate_asin_spec. now split.
  - intros a b Hlen Hfirst.
    destruct (validate_asin a) eqn:Ea; symmetry.
    + apply validate_asin_spec in Ea as [Hl Hf].
      apply validate_asin_spec. split; congruence.
    + destruct (validate_asin b) eqn:Eb; [|reflexivity].
      apply validate_asin_spec in Eb as [Hl Hf].
      rewrite <- Ea. symmetry. apply validate_asin_spec. split; congruence.
Qed.

(** C5: a string whose length is not ten, or whose first character is not
    [B], is refused by the validator; [process_book] then prints the error
    and exits with status 1, having launched no command and touched no
    file. *)
Theorem invalid_asin_fails_fast (asin : string) (output_dir : Path.t)
    (keep_files : bool) (profile : option string) (w : world) :
  String.length asin <> 10%nat \/ String.get 0 asin <> Some "B"%char ->
  validate_asin asin = false /\
  process_book asin output_dir keep_files profile w
  = (Exit 1, add_output (Secho ("Error: Invalid ASIN format: " +:+ asin) "red") w) /\
  launched (snd (process_book asin output_dir keep_files profile w)) = launched w /\
  files (snd (process_book asin output_dir keep_files profile w)) = files w.
Proof.
  intros Hbad.
  assert (Hv : validate_asin asin = false).
  { destruct (validate_asin asin) eqn:E; [|reflexivity].
    apply validate_asin_spec in E as [Hl Hf]. destruct Hbad; contradiction. }
  assert (Hrun : process_book asin output_dir keep_files profile w
                 = (Exit 1, add_output (Secho ("Error: Invalid ASIN format: " +:+ asin) "red") w)).
  { unfold process_book, acquire, bind. rewrite Hv. reflexivity. }
  split; [exact Hv|]. split; [exact Hrun|]. rewrite Hrun. split; reflexivity.
Qed.

(** ** The listing parser *)

(** ** The sort dialogue *)

(** C8: with either recognised default, the listing is reversed (once)
    exactly when the effective direction is newest-first, the effective
    direction being the default when the operator confirms and the other
    one when they decline; on a decline the effective direction is the one
    announced. *)
Theorem sort_toggle_single_reversal (sort_order : string) (cfg : config)
    (yes : bool) (rest : list bool) (library_data : list book) (w : world) :
  sort_order = "newest_first" \/ sort_order = "oldest_first" ->
  default_sort cfg = Some sort_order ->
  confirms w = yes :: rest ->
  let effective := if yes then sort_order else other_sort sort_order in
  let asked :=
    set_confirms rest
      (add_output (AskConfirm ("Sort by '" +:+ Py.replace "_" " " sort_order +:+ "'?")) w) in
  other_sort "newest_first" = "oldest_first" /\
  other_sort "oldest_first" = "newest_first" /\
  apply_sort cfg library_data w
  = (Ret (if String.eqb effective "newest_first" then rev library_data
          else library_data),
     if yes then asked
     else add_output (Echo ("Sorting by " +:+ Py.replace "_" " " effective +:+ ".")) asked).
Proof.
  intros Hso Hcfg Hconf effective asked.
  split; [reflexivity|]. split; [reflexivity|].
  unfold apply_sort, bind, confirm. rewrite Hcfg, Hconf. cbn [default].
  subst effective asked.
  destruct Hso as [-> | ->]; destruct yes; reflexivity.
Qed.

(** ** The decryption *)

(** C1: on an input file that has a name, [decrypt_audiobook] always
    returns; it returns success with the output path when the transcoder
    exited with code zero and the target file exists with a size above
    zero, and failure with no path as soon as one of the three fails. *)
Theorem decrypt_success_iff (input_file output_dir target : Path.t)
    (key iv : string) (w : world) :
  Path.with_suffix ".m4b" input_file = Some target ->
  let output_file := Path.div output_dir (Path.name target) in
  let ran := subprocess_run (decrypt_cmd key iv input_file output_file) (files w) in
  let success :=
    (exists out err, fst ran = Completed 0 out err) /\
    (exists data, snd ran !! output_file = Some data /\ (0 < String.length data)%nat) in
  exists result w',
    decrypt_audiobook input_file output_dir (JString key, JString iv) w
    = (Ret result, w') /\
    files w' = snd ran /\
    (success -> result = (true, Some output_file)) /\
    (~ success -> result = (false, None)).
Proof.
  intros Htarget output_file ran success.
  unfold decrypt_audiobook, with_suffix. rewrite Htarget.
  unfold bind at 1. unfold ret at 1. fold output_file.
  unfold try_except, bind, decrypt_args, ret, run, path_exists, st_size,
    secho, emit.
  world_simpl. fold ran. subst success.
  destruct (fst ran) as [rc out err | e] eqn:Eran.
  - destruct (rc =? 0) eqn:Erc; cbn [negb].
    + apply Z.eqb_eq in Erc. subst rc. world_simpl.
      destruct (snd ran !! output_file) as [data|] eqn:Efile.
      * rewrite bool_decide_eq_true_2 by eauto.
        world_simpl. rewrite Efile. world_simpl.
        destruct (Z.of_nat (String.length data) =? 0) eqn:Esz.
        -- eexists _, _. split; [reflexivity|]. split; [reflexivity|].
           split; [|reflexivity].
           intros [_ (d & Hd & Hpos)]. apply Z.eqb_eq in Esz.
           assert (d = data) by congruence. subst d. lia.
        -- eexists _, _. split; [reflexivity|]. split; [reflexivity|].
           split; [reflexivity|].
           intros Hno. exfalso. apply Hno. split; [eauto|].
           exists data. split; [reflexivity|]. apply Z.eqb_neq in Esz. lia.
      * rewrite bool_decide_eq_false_2 by (intros [? ?]; discriminate).
        eexists _, _. split; [reflexivity|]. split; [reflexivity|].
        split; [|reflexivity].
        intros [_ (d & Hd & _)]. discriminate.
    + eexists _, _. split; [reflexivity|]. split; [reflexivity|].
      split; [|reflexivity].
      intros [(o & e' & Hc) _]. injection Hc as -> _ _. discriminate.
  - eexists _, _. split; [reflexivity|]. split; [reflexivity|].
    split; [|reflexivity].
    intros [(o & e' & Hc) _]. discriminate.
Qed.

(** ** The voucher reader *)

Lemma get_aaxc_credentials_missing (voucher_file : Path.t) (w : world) :
  files w !! voucher_file = None ->
  get_aaxc_credentials voucher_file w
  = (Raise (ClickException ("Voucher file not found: " +:+ Path.str voucher_file)), w).
Proof.
  intros Hnone. unfold get_aaxc_credentials, bind, path_exists.
  rewrite Hnone, bool_decide_eq_false_2 by (intros [? ?]; discriminate).
  reflexivity.
Qed.

(** Once the file is read and decoded, the four [get] calls decide. *)
Lemma get_aaxc_credentials_decoded (voucher_file : Path.t) (text : string)
    (v : json) (w : world) :
  files w !! voucher_file = Some text ->
  json_loads text = inr v ->
  get_aaxc_credentials voucher_file w
  = (license <- dict_get v "content_license" (JObject ∅) ;;
     content_license <- dict_get license "license_response" (JObject ∅) ;;
     key <- dict_get content_license "key" JNull ;;
     iv <- dict_get content_license "iv" JNull ;;
     if negb (truthy key) || negb (truthy iv)
     then raise (ClickException "Could not find key/iv in voucher file")
     else ret (key, iv)) w.
Proof.
  intros Hfile Hjson.
  unfold get_aaxc_credentials, path_exists, read_text, loads.
  unfold bind at 1. rewrite Hfile, bool_decide_eq_true_2 by eauto. cbn [negb].
  unfold bind at 1. rewrite Hfile.
  unfold bind at 1. rewrite Hjson. reflexivity.
Qed.

(** In a voucher whose present levels are objects, the two outer [get]
    calls arrive at an object holding exactly the nested fields. *)
Lemma nested_objects_inner (v : json) :
  nested_objects v = true ->
  exists inner : gmap string json,
    (forall leaf, nested_field v leaf = inner !! leaf) /\
    (forall (A : Type) (k : json -> M A) (w : world),
        (license <- dict_get v "content_license" (JObject ∅) ;;
         content_license <- dict_get license "license_response" (JObject ∅) ;;
         k content_license) w = k (JObject inner) w).
Proof.
  destruct v as [| | | | | |m]; try discriminate.
  unfold nested_objects, nested_field. cbn [field].
  destruct (m !! "content_license") as [license|] eqn:E1.
  - destruct license as [| | | | | |m1]; try discriminate. cbn [object_or_absent field andb].
    destruct (m1 !! "license_response") as [response|] eqn:E2.
    + destruct response as [| | | | | |m2]; try discriminate. intros _.
      exists m2. split; [reflexivity|]. intros A k w.
      unfold bind, dict_get, ret. rewrite E1, E2. reflexivity.
    + intros _. exists ∅. split; [intros leaf; now rewrite lookup_empty|].
      intros A k w. unfold bind, dict_get, ret. rewrite E1, E2. reflexivity.
  - intros _. exists ∅. split; [intros leaf; now rewrite lookup_empty|].
    intros A k w. unfold bind, dict_get, ret. rewrite E1, lookup_empty. reflexivity.
Qed.

Lemma absent_or_empty_get (inner : gmap string json) (leaf : string) :
  absent_or_empty (inner !! leaf)
  = negb (truthy (match inner !! leaf with Some x => x | None => JNull end)).
Proof. destruct (inner !! leaf); reflexivity. Qed.

Lemma nested_field_some (v : json) (leaf : string) (x : json) :
  nested_field v leaf = Some x -> nested_objects v = true.
Proof.
  destruct v as [| | | | | |m]; try discriminate.
  unfold nested_objects, nested_field. cbn [field].
  destruct (m !! "content_license") as [[| | | | | |m1]|]; try discriminate.
  cbn [field object_or_absent andb].
  destruct (m1 !! "license_response") as [[| | | | | |m2]|]; try discriminate.
  reflexivity.
Qed.

(** C2: a missing voucher file is reported as such; a voucher
    that decodes to an object whose [content_license] and
    [license_response], where present, are objects, and whose [key] or [iv]
    is absent or empty, is reported as lacking key/iv; a voucher holding
    both yields them, and the sample voucher yields [AB12] and [CD34]. *)
Theorem credentials_contract (voucher_file : Path.t) (w : world) :
  (files w !! voucher_file = None ->
   get_aaxc_credentials voucher_file w
   = (Raise (ClickException ("Voucher file not found: " +:+ Path.str voucher_file)), w)) /\
  (forall (text : string) (v : json),
      files w !! voucher_file = Some text ->
      json_loads text = inr v ->
      nested_objects v = true ->
      absent_or_empty (nested_field v "key") = true \/
      absent_or_empty (nested_field v "iv") = true ->
      get_aaxc_credentials voucher_file w
      = (Raise (ClickException "Could not find key/iv in voucher file"), w)) /\
  (forall (text : string) (v key iv : json),
      files w !! voucher_file = Some text ->
      json_loads text = inr v ->
      nested_field v "key" = Some key -> truthy key = true ->
      nested_field v "iv" = Some iv -> truthy iv = true ->
      get_aaxc_credentials voucher_file w = (Ret (key, iv), w)) /\
  (forall text : string,
      files w !! voucher_file = Some text ->
      json_loads text = inr sample_voucher ->
      get_aaxc_credentials voucher_file w = (Ret (JString "AB12", JString "CD34"), w)).
Proof.
  assert (Hpresent : forall (text : string) (v key iv : json),
      files w !! voucher_file = Some text ->
      json_loads text = inr v ->
      nested_field v "key" = Some key -> truthy key = true ->
      nested_field v "iv" = Some iv -> truthy iv = true ->
      get_aaxc_credentials voucher_file w = (Ret (key, iv), w)).
  { intros text v key iv Hfile Hjson Hk Hkt Hi Hit.
    rewrite (get_aaxc_credentials_decoded _ _ _ _ Hfile Hjson).
    destruct (nested_objects_inner v (nested_field_some _ _ _ Hk))
      as (inner & Hfield & Hchain).
    rewrite Hchain. rewrite Hfield in Hk, Hi.
    unfold bind, dict_get, ret. rewrite Hk, Hi, Hkt, Hit. reflexivity. }
  split; [apply get_aaxc_credentials_missing|].
  split; [|split; [exact Hpresent|]].
  - intros text v Hfile Hjson Hshape Hbad.
    rewrite (get_aaxc_credentials_decoded _ _ _ _ Hfile Hjson).
    destruct (nested_objects_inner v Hshape) as (inner & Hfield & Hchain).
    rewrite Hchain. rewrite !Hfield, !absent_or_empty_get in Hbad.
    unfold bind, dict_get, ret.
    apply orb_true_iff in Hbad. rewrite Hbad. reflexivity.
  - intros text Hfile Hjson.
    apply (Hpresent text sample_voucher); try assumption; reflexivity.
Qed.

(** ** The verification stage *)

Lemma verify_decrypted_file_eq (file_path : Path.t) (w : world) :
  verify_decrypted_file file_path w
  = (Ret match fst (subprocess_run (verify_cmd file_path) (files w)) with
         | Completed returncode _ _ => returncode =? 0
         | NotStarted _ => false
         end,
     set_files (snd (subprocess_run (verify_cmd file_path) (files w)))
       (add_launched (verify_cmd file_path) w)).
Proof.
  unfold verify_decrypted_file, try_except, bind, run, ret.
  destruct (fst (subprocess_run (verify_cmd file_path) (files w))); reflexivity.
Qed.

(** C3: when the verifier answers false on the decrypted file, whether the
    transcoder judged the file invalid or could not be started,
    [process_book] prints the error, leaves no file at the output path
    (nothing else is removed) and exits with status 1; and a run that
    completes has had its output verified. *)
Theorem failed_verification_removes_output (asin : string)
    (output_dir : Path.t) (keep_files : bool) (profile : option string)
    (w : world) :
  (forall (aaxc_file output_file : Path.t) (w1 : world),
      acquire asin output_dir profile w = (Ret (aaxc_file, output_file), w1) ->
      fst (verify_decrypted_file output_file w1) = Ret false ->
      exists w',
        process_book asin output_dir keep_files profile w = (Exit 1, w') /\
        files w' !! output_file = None /\
        files w' = delete output_file
                     (snd (subprocess_run (verify_cmd output_file) (files w1))) /\
        last (output w') = Some (Secho "Error: Decrypted file verification failed." "red")) /\
  (forall (file_path : Path.t) (e : exn) (w1 : world),
      fst (subprocess_run (verify_cmd file_path) (files w1)) = NotStarted e ->
      fst (verify_decrypted_file file_path w1) = Ret false) /\
  (forall w' : world,
      process_book asin output_dir keep_files profile w = (Ret tt, w') ->
      exists (aaxc_file output_file : Path.t) (w1 : world),
        acquire asin output_dir profile w = (Ret (aaxc_file, output_file), w1) /\
        fst (verify_decrypted_file output_file w1) = Ret true).
Proof.
  split; [|split].
  - intros aaxc_file output_file w1 Hacq Hver.
    rewrite verify_decrypted_file_eq in Hver. cbn [fst] in Hver.
    injection Hver as Hver.
    unfold process_book. unfold bind at 1. rewrite Hacq. cbn [fst snd].
    unfold verify_and_finish, echo, emit. unfold bind at 1. unfold bind at 1.
    rewrite verify_decrypted_file_eq. world_simpl. rewrite Hver. cbn [negb].
    unfold secho, emit, path_exists, unlink, sys_exit, bind, ret. world_simpl.
    set (fs := snd (subprocess_run (verify_cmd output_file) (files w1))).
    destruct (fs !! output_file) as [data|] eqn:Efile.
    + rewrite bool_decide_eq_true_2 by eauto. world_simpl. rewrite Efile.
      eexists. split; [reflexivity|]. world_simpl.
      split; [apply lookup_delete_eq|]. split; [reflexivity|].
      apply last_snoc.
    + rewrite bool_decide_eq_false_2 by (intros [? ?]; discriminate).
      eexists. split; [reflexivity|]. world_simpl.
      split; [exact Efile|]. split; [now rewrite delete_id|].
      apply last_snoc.
  - intros file_path e w1 Hrun. rewrite verify_decrypted_file_eq. cbn [fst].
    now rewrite Hrun.
  - intros w' Hdone. unfold process_book in Hdone. unfold bind at 1 in Hdone.
    destruct (acquire asin output_dir profile w) as [[[aaxc_file output_file]|e|c] w1] eqn:Hacq;
      try discriminate.
    exists aaxc_file, output_file, w1. split; [reflexivity|].
    rewrite verify_decrypted_file_eq. cbn [fst snd] in *.
    unfold verify_and_finish, echo, emit in Hdone.
    unfold bind at 1 in Hdone. unfold bind at 1 in Hdone.
    rewrite verify_decrypted_file_eq in Hdone. world_simpl.
    destruct (match fst (subprocess_run (verify_cmd output_file) (files w1)) with
              | Completed returncode _ _ => returncode =? 0
              | NotStarted _ => false
              end); [reflexivity|].
    exfalso. cbn [negb] in Hdone.
    unfold secho, emit, path_exists, unlink, sys_exit, bind, ret in Hdone.
    world_simpl.
    destruct (snd (subprocess_run (verify_cmd output_file) (files w1)) !! output_file) eqn:Efile.
    + rewrite bool_decide_eq_true_2 in Hdone by eauto. world_simpl.
      rewrite Efile in Hdone. discriminate.
    + rewrite bool_decide_eq_false_2 in Hdone by (intros [? ?]; discriminate).
      discriminate.
Qed.

(** ** The base name of an artifact *)

Lemma string_app_assoc (a b c : string) : (a +:+ b) +:+ c = a +:+ b +:+ c.
Proof.
  induction a as [|x a IH]; [reflexivity | exact (f_equal (String x) IH)].
Qed.













(** ** The browser *)

Lemma slice_nonempty {A} (l : list A) (start stop : Z) :
  0 <= start < Z.of_nat (length l) -> start < stop -> Py.slice l start stop <> [].
Proof.
  intros Hstart Hstop. unfold Py.slice.
  assert (H1 : (start <? 0) = false) by (apply Z.ltb_ge; lia).
  assert (H2 : (stop <? 0) = false) by (apply Z.ltb_ge; lia).
  rewrite H1, H2.
  destruct (skipn (Z.to_nat (Z.min start (Z.of_nat (length l)))) l) as [|x rest] eqn:E.
  - apply (f_equal (@length A)) in E. rewrite length_skipn in E. simpl in E. lia.
  - destruct (Z.to_nat (Z.min stop (Z.of_nat (length l)) - Z.min start (Z.of_nat (length l))))
      as [|k] eqn:Ek; [lia | discriminate].
Qed.

(** The last page index, as the table title computes the page count. *)
Lemma last_page_bound (total page_size page_num : Z) :
  0 < page_size ->
  (page_num <= - (- total / page_size) - 1 <-> page_num * page_size < total).
Proof.
  intros Hps.
  pose proof (Z.div_mod (- total) page_size ltac:(lia)) as Hdm.
  pose proof (Z.mod_pos_bound (- total) page_size Hps) as Hmod.
  split; intros H; nia.
Qed.

(** A turn that continues stays on the page, or moves one page forward
    when entries remain after it, or one page back when it is not the first;
    on an empty page it steps back. *)
Lemma browse_iteration_continue (output_dir : Path.t) (keep_files : bool)
    (profile : option string) (library_data : list book)
    (page_size page_num page_num' : Z) (w w' : world) :
  browse_iteration output_dir keep_files profile library_data page_size page_num w
  = (Ret (Continue page_num'), w') ->
  (Py.slice library_data (page_num * page_size) (page_num * page_size + page_size) = []
   /\ page_num' = page_num - 1) \/
  (Py.slice library_data (page_num * page_size) (page_num * page_size + page_size) <> []
   /\ (page_num' = page_num \/
       (page_num' = page_num + 1 /\
        page_num * page_size + page_size < Z.of_nat (length library_data)) \/
       (page_num' = page_num - 1 /\ 0 < page_num))).
Proof.
  unfold browse_iteration. cbv zeta.
  destruct (Py.slice library_data (page_num * page_size)
              (page_num * page_size + page_size)) as [|item page] eqn:Epage.
  - unfold bind, echo, emit, ret. intros [= <- _]. left. split; reflexivity.
  - intros H. right. split; [discriminate|].
    unfold bind, emit, prompt, echo, secho, emit, ret, raise in H.
    world_simpl.
    destruct (prompts w) as [|reply rest]; [discriminate|].
    destruct (Py.isdigit (Py.lower reply)).
    + destruct (Py.int (Py.lower reply)) as [choice|]; [|discriminate].
      destruct ((1 <=? choice) && (choice <=? Z.of_nat (length library_data))).
      * destruct (library_data !! Z.to_nat (choice - 1)) as [chosen|]; [|discriminate].
        destruct (process_book (asin chosen) output_dir keep_files profile _)
          as [[[]|e|c] w2]; discriminate.
      * injection H as <- _. now left.
    + destruct (String.eqb (Py.lower reply) "n").
      { destruct (page_num * page_size + page_size <? Z.of_nat (length library_data)) eqn:En.
        - injection H as <- _. right. left. split; [reflexivity|]. now apply Z.ltb_lt.
        - injection H as <- _. now left. }
      destruct (String.eqb (Py.lower reply) "p").
      { destruct (0 <? page_num) eqn:Ep.
        - injection H as <- _. right. right. split; [reflexivity|]. now apply Z.ltb_lt.
        - injection H as <- _. now left. }
      destruct (String.eqb (Py.lower reply) "q"); [discriminate|].
      injection H as <- _. now left.
Qed.

Lemma reachable_in_range (output_dir : Path.t) (keep_files : bool)
    (profile : option string) (library_data : list book)
    (page_size page_num : Z) :
  library_data <> [] -> 0 < page_size ->
  reachable output_dir keep_files profile library_data page_size page_num ->
  0 <= page_num /\ page_num * page_size < Z.of_nat (length library_data).
Proof.
  intros Hlib Hps Hreach. induction Hreach as [|page_num page_num' w w' _ IH Hturn].
  - split; [lia|]. destruct library_data; [contradiction | simpl; lia].
  - apply browse_iteration_continue in Hturn as [[Hempty _] | [_ Hmove]].
    + exfalso. revert Hempty. apply slice_nonempty; lia.
    + destruct Hmove as [-> | [[-> Hnext] | [-> Hprev]]]; [exact IH | lia | nia].
Qed.

(** The loop is only entered with a listing that is not empty. *)
Lemma session_listing_nonempty (profile : option string) (cfg : config)
    (library_data : list book) (w w' : world) :
  (fetched <- fetch_library profile ;; apply_sort cfg fetched) w
  = (Ret library_data, w') ->
  library_data <> [].
Proof.
  unfold bind at 1.
  destruct (fetch_library profile w) as [[fetched|e|c] w1] eqn:Hfetch;
    try discriminate.
  assert (Hne : fetched <> []).
  { unfold fetch_library, rich_available in Hfetch. unfold bind at 1 in Hfetch.
    destruct (rich_installed w); [|discriminate]. cbn [negb] in Hfetch.
    unfold bind at 1 in Hfetch.
    destruct (try_except _ _ w) as [[l|e|c] w2]; try discriminate.
    destruct l; [discriminate|]. injection Hfetch as <- _. discriminate. }
  unfold apply_sort, bind, confirm, echo, emit, ret.
  destruct (confirms w1) as [|yes rest]; [discriminate|].
  assert (Hrev : rev fetched <> []).
  { intros Hnil. apply Hne. apply (f_equal (@rev book)) in Hnil.
    now rewrite rev_involutive in Hnil. }
  destruct yes; intros [= <- _];
    repeat match goal with |- context [if ?b then _ else _] => destruct b end;
    assumption.
Qed.

(** C6: from page 0 on, with a non-empty listing and a positive page size,
    every page index the loop reaches lies between 0 and the page count
    less one; [n] on the last page and [p] on page 0 leave the index as it
    is and print a notice; and with 25 entries shown by tens, page 0 shows
    the rows numbered 1 to 10 and page 2 the rows numbered 21 to 25. *)
Theorem page_index_in_range_and_clamped (output_dir : Path.t)
    (keep_files : bool) (profile : option string) :
  (forall (library_data : list book) (page_size page_num : Z),
      library_data <> [] -> 0 < page_size ->
      reachable output_dir keep_files profile library_data page_size page_num ->
      0 <= page_num <= - (- Z.of_nat (length library_data) / page_size) - 1) /\
  (forall (library_data : list book) (page_size page_num : Z)
          (reply : string) (rest : list string) (w : world),
      library_data <> [] -> 0 < page_size ->
      page_num = - (- Z.of_nat (length library_data) / page_size) - 1 ->
      prompts w = reply :: rest -> Py.lower reply = "n" ->
      browse_iteration output_dir keep_files profile library_data page_size page_num w
      = (Ret (Continue page_num),
         add_output (Echo "Already on the last page.")
           (set_prompts rest
              (add_output (AskPrompt prompt_text)
                 (add_output
                    (ConsoleTable (table_title library_data page_size page_num)
                       (table_rows (page_num * page_size)
                          (Py.slice library_data (page_num * page_size)
                             (page_num * page_size + page_size)))) w))))) /\
  (forall (library_data : list book) (page_size : Z)
          (reply : string) (rest : list string) (w : world),
      library_data <> [] -> 0 < page_size ->
      prompts w = reply :: rest -> Py.lower reply = "p" ->
      browse_iteration output_dir keep_files profile library_data page_size 0 w
      = (Ret (Continue 0),
         add_output (Echo "Already on the first page.")
           (set_prompts rest
              (add_output (AskPrompt prompt_text)
                 (add_output
                    (ConsoleTable (table_title library_data page_size 0)
                       (table_rows (0 * page_size)
                          (Py.slice library_data (0 * page_size)
                             (0 * page_size + page_size)))) w))))) /\
  (forall library_data : list book,
      length library_data = 25%nat ->
      Py.slice library_data (0 * 10) (0 * 10 + 10) = firstn 10 library_data /\
      map (hd "") (table_rows (0 * 10) (firstn 10 library_data))
      = ["1"; "2"; "3"; "4"; "5"; "6"; "7"; "8"; "9"; "10"] /\
      map (fun row => nth 3 row "") (table_rows (0 * 10) (firstn 10 library_data))
      = map asin (firstn 10 library_data) /\
      Py.slice library_data (2 * 10) (2 * 10 + 10) = skipn 20 library_data /\
      map (hd "") (table_rows (2 * 10) (skipn 20 library_data))
      = ["21"; "22"; "23"; "24"; "25"] /\
      map (fun row => nth 3 row "") (table_rows (2 * 10) (skipn 20 library_data))
      = map asin (skipn 20 library_data)).
Proof.
  split; [|split; [|split]].
  - intros library_data page_size page_num Hlib Hps Hreach.
    destruct (reachable_in_range _ _ _ _ _ _ Hlib Hps Hreach) as [H0 Hlt].
    split; [exact H0 | now apply last_page_bound].
  - intros library_data page_size page_num reply rest w Hlib Hps Hlast Hprompt Hn.
    assert (Hlen : 0 < Z.of_nat (length library_data))
      by (destruct library_data; [contradiction | simpl; lia]).
    assert (Hin : page_num * page_size < Z.of_nat (length library_data))
      by (apply last_page_bound; lia).
    assert (H0 : 0 <= page_num).
    { assert (0 <= - (- Z.of_nat (length library_data) / page_size) - 1)
        by (apply last_page_bound; lia). lia. }
    assert (Hend : ~ (page_num + 1) * page_size < Z.of_nat (length library_data)).
    { intros Hc. apply last_page_bound in Hc; lia. }
    pose proof (slice_nonempty library_data (page_num * page_size)
                  (page_num * page_size + page_size) ltac:(nia) ltac:(lia)) as Hpage.
    unfold browse_iteration. cbv zeta.
    destruct (Py.slice library_data (page_num * page_size)
                (page_num * page_size + page_size)) as [|item page]; [contradiction|].
    unfold bind, emit, prompt, echo, emit, ret. world_simpl.
    rewrite Hprompt, Hn. cbn [Py.isdigit Py.all_chars String.eqb Ascii.eqb Bool.eqb].
    replace (Py.isdigit_char "n") with false by reflexivity. cbn [andb].
    replace (page_num * page_size + page_size <? Z.of_nat (length library_data))
      with false by (symmetry; apply Z.ltb_ge; lia).
    reflexivity.
  - intros library_data page_size reply rest w Hlib Hps Hprompt Hp.
    assert (Hlen : 0 < Z.of_nat (length library_data))
      by (destruct library_data; [contradiction | simpl; lia]).
    pose proof (slice_nonempty library_data (0 * page_size)
                  (0 * page_size + page_size) ltac:(lia) ltac:(lia)) as Hpage.
    unfold browse_iteration. cbv zeta.
    destruct (Py.slice library_data (0 * page_size)
                (0 * page_size + page_size)) as [|item page]; [contradiction|].
    unfold bind, emit, prompt, echo, emit, ret. world_simpl.
    rewrite Hprompt, Hp. reflexivity.
  - intros library_data Hlen.
    do 25 (destruct library_data as [|? library_data]; [discriminate Hlen|]).
    destruct library_data; [|cbn in Hlen; lia].
    repeat split; reflexivity.
Qed.

(** A decimal numeral is a numeric input: [isdigit] holds of it and [int]
    reads it. *)
Lemma int_digits_total (s : string) (acc : Z) :
  Py.all_chars Py.is_ascii_digit s = true -> 0 <= acc ->
  exists n, Py.int_digits acc s = Some n /\ 0 <= n.
Proof.
  revert acc. induction s as [|c s IH]; intros acc Hall Hacc; simpl in *.
  - now exists acc.
  - apply andb_true_iff in Hall as [Hc Hs]. rewrite Hc. apply IH; [exact Hs | lia].
Qed.

Lemma lower_digits (s : string) :
  Py.all_chars Py.is_ascii_digit s = true -> Py.lower s = s.
Proof.
  induction s as [|c s IH]; simpl; [reflexivity|].
  intros Hall. apply andb_true_iff in Hall as [Hc Hs]. rewrite (IH Hs). f_equal.
  unfold Py.is_ascii_digit in Hc. unfold Py.lower_char.
  apply andb_true_iff in Hc as [H1 H2]. apply N.leb_le in H1, H2.
  replace ((65 <=? N_of_ascii c)%N && (N_of_ascii c <=? 90)%N) with false
    by (symmetry; apply andb_false_iff; left; apply N.leb_gt; lia).
  replace ((192 <=? N_of_ascii c)%N) with false by (symmetry; apply N.leb_gt; lia).
  reflexivity.
Qed.

Lemma ascii_digits_are_digits (s : string) :
  Py.all_chars Py.is_ascii_digit s = true -> Py.all_chars Py.isdigit_char s = true.
Proof.
  induction s as [|c s IH]; simpl; [reflexivity|].
  intros H. apply andb_true_iff in H as [Hc Hs].
  rewrite (IH Hs). unfold Py.isdigit_char. rewrite Hc. reflexivity.
Qed.

Lemma decimal_input_is_numeric (reply : string) :
  reply <> "" -> Py.all_chars Py.is_ascii_digit reply = true ->
  Py.isdigit (Py.lower reply) = true /\
  exists choice, Py.int (Py.lower reply) = Some choice /\ 0 <= choice.
Proof.
  intros Hne Hall. rewrite (lower_digits _ Hall).
  destruct reply as [|c s]; [contradiction|]. split.
  - unfold Py.isdigit. now apply ascii_digits_are_digits.
  - unfold Py.int. apply int_digits_total; [exact Hall | lia].
Qed.


(** ** More on the browser *)

Lemma browse_iteration_prompted (output_dir : Path.t) (keep_files : bool)
    (profile : option string) (library_data : list book)
    (page_size page_num : Z) (reply : string) (rest : list string) (w : world) :
  Py.slice library_data (page_num * page_size) (page_num * page_size + page_size) <> [] ->
  prompts w = reply :: rest ->
  browse_iteration output_dir keep_files profile library_data page_size page_num w
  = respond output_dir keep_files profile library_data page_size page_num
      (Py.lower reply) (page_shown library_data page_size page_num rest w).
Proof.
  intros Hpage Hprompt. unfold browse_iteration, page_shown, respond. cbv zeta.
  destruct (Py.slice library_data (page_num * page_size)
              (page_num * page_size + page_size)) as [|item page]; [contradiction|].
  unfold bind at 1. unfold emit at 1. unfold bind at 1. unfold prompt at 1.
  world_simpl. rewrite Hprompt. reflexivity.
Qed.

Lemma browse_iteration_eof (output_dir : Path.t) (keep_files : bool)
    (profile : option string) (library_data : list book)
    (page_size page_num : Z) (w : world) :
  Py.slice library_data (page_num * page_size) (page_num * page_size + page_size) <> [] ->
  prompts w = [] ->
  exists w', browse_iteration output_dir keep_files profile library_data
               page_size page_num w = (Raise (PyError "Abort" ""), w').
Proof.
  intros Hpage Hprompt. unfold browse_iteration. cbv zeta.
  destruct (Py.slice library_data (page_num * page_size)
              (page_num * page_size + page_size)) as [|item page]; [contradiction|].
  unfold bind at 1. unfold emit at 1. unfold bind at 1. unfold prompt at 1.
  world_simpl. rewrite Hprompt. eexists. reflexivity.
Qed.

Lemma lower_char_idempotent (c : ascii) :
  Py.lower_char (Py.lower_char c) = Py.lower_char c.
Proof. destruct c as [[] [] [] [] [] [] [] []]; reflexivity. Qed.

Lemma lower_idempotent (s : string) : Py.lower (Py.lower s) = Py.lower s.
Proof.
  induction s as [|c s IH]; simpl; [reflexivity|].
  now rewrite lower_char_idempotent, IH.
Qed.

Lemma int_digits_refuses (s : string) (acc : Z) :
  Py.all_chars Py.is_ascii_digit s = false -> Py.int_digits acc s = None.
Proof.
  revert acc. induction s as [|c s IH]; intros acc; simpl; [discriminate|].
  destruct (Py.is_ascii_digit c); [apply IH | reflexivity].
Qed.

Lemma page_nonempty (library_data : list book) (page_size page_num : Z) :
  0 < page_size -> 0 <= page_num ->
  page_num * page_size < Z.of_nat (length library_data) ->
  Py.slice library_data (page_num * page_size) (page_num * page_size + page_size) <> [].
Proof. intros Hps H0 Hin. apply slice_nonempty; nia. Qed.

(** X1: [q], in either letter case, ends the loop at once: the run returns
    normally, with the farewell as its last message, no command launched
    and no file touched. *)
Theorem quit_ends_the_browser (output_dir : Path.t) (keep_files : bool)
    (profile : option string) (library_data : list book)
    (page_size page_num : Z) (reply : string) (rest : list string) (w : world) :
  Py.slice library_data (page_num * page_size) (page_num * page_size + page_size) <> [] ->
  prompts w = reply :: rest ->
  Py.lower reply = "q" ->
  exists w',
    (forall fuel : nat,
        browse_loop (S fuel) output_dir keep_files profile library_data
          page_size page_num w = Some (Ret tt, w')) /\
    last (output w') = Some (Echo "Exiting library browser.") /\
    launched w' = launched w /\ files w' = files w /\ prompts w' = rest.
Proof.
  intros Hpage Hprompt Hq.
  exists (add_output (Echo "Exiting library browser.")
            (page_shown library_data page_size page_num rest w)).
  split; [|split; [apply last_snoc | repeat split]].
  intros fuel. cbn [browse_loop].
  rewrite (browse_iteration_prompted _ _ _ _ _ _ _ _ _ Hpage Hprompt), Hq.
  reflexivity.
Qed.

(** X2: [n] followed by [p] on a page that has a successor, and [p]
    followed by [n] on a page that has a predecessor, bring the browser back
    to the page it was on, with no notice printed. *)
Theorem next_and_previous_cancel (output_dir : Path.t) (keep_files : bool)
    (profile : option string) (library_data : list book)
    (page_size page_num : Z) (first second : string) (rest : list string)
    (w : world) :
  0 < page_size -> 0 <= page_num ->
  page_num * page_size < Z.of_nat (length library_data) ->
  prompts w = first :: second :: rest ->
  (page_num * page_size + page_size < Z.of_nat (length library_data) ->
   Py.lower first = "n" -> Py.lower second = "p" ->
   forall fuel : nat,
     browse_loop (S (S fuel)) output_dir keep_files profile library_data
       page_size page_num w
     = browse_loop fuel output_dir keep_files profile library_data page_size
         page_num
         (page_shown library_data page_size (page_num + 1) rest
            (page_shown library_data page_size page_num (second :: rest) w))) /\
  (0 < page_num ->
   Py.lower first = "p" -> Py.lower second = "n" ->
   forall fuel : nat,
     browse_loop (S (S fuel)) output_dir keep_files profile library_data
       page_size page_num w
     = browse_loop fuel output_dir keep_files profile library_data page_size
         page_num
         (page_shown library_data page_size (page_num - 1) rest
            (page_shown library_data page_size page_num (second :: rest) w))).
Proof.
  intros Hps H0 Hin Hprompt. split.
  - intros Hnext Hn Hp fuel.
    cbn [browse_loop].
    rewrite (browse_iteration_prompted _ _ _ _ _ _ _ _ _
               (page_nonempty _ _ _ Hps H0 Hin) Hprompt), Hn.
    unfold respond at 1.
    replace (Py.isdigit "n") with false by reflexivity.
    replace (String.eqb "n" "n") with true by reflexivity.
    replace (page_num * page_size + page_size <? Z.of_nat (length library_data))
      with true by (symmetry; apply Z.ltb_lt; lia).
    unfold ret at 1.
    rewrite (browse_iteration_prompted _ _ _ _ _ (page_num + 1) second rest);
      [|apply page_nonempty; lia | reflexivity].
    rewrite Hp. unfold respond at 1.
    replace (Py.isdigit "p") with false by reflexivity.
    replace (String.eqb "p" "n") with false by reflexivity.
    replace (String.eqb "p" "p") with true by reflexivity.
    replace (0 <? page_num + 1) with true by (symmetry; apply Z.ltb_lt; lia).
    unfold ret at 1. now rewrite Z.add_simpl_r.
  - intros Hprev Hp Hn fuel.
    cbn [browse_loop].
    rewrite (browse_iteration_prompted _ _ _ _ _ _ _ _ _
               (page_nonempty _ _ _ Hps H0 Hin) Hprompt), Hp.
    unfold respond at 1.
    replace (Py.isdigit "p") with false by reflexivity.
    replace (String.eqb "p" "n") with false by reflexivity.
    replace (String.eqb "p" "p") with true by reflexivity.
    replace (0 <? page_num) with true by (symmetry; apply Z.ltb_lt; lia).
    unfold ret at 1.
    rewrite (browse_iteration_prompted _ _ _ _ _ (page_num - 1) second rest);
      [|apply page_nonempty; nia | reflexivity].
    rewrite Hn. unfold respond at 1.
    replace (Py.isdigit "n") with false by reflexivity.
    replace (String.eqb "n" "n") with true by reflexivity.
    replace ((page_num - 1) * page_size + page_size <? Z.of_nat (length library_data))
      with true by (symmetry; apply Z.ltb_lt; lia).
    unfold ret at 1. now rewrite Z.sub_add.
Qed.

(** X3: a reply that is neither a number nor [n], [p] or [q] once
    lower-cased (the empty reply included) is answered by
    [Invalid input.]; the browser stays on its page and asks again. *)
Theorem other_input_is_refused (output_dir : Path.t) (keep_files : bool)
    (profile : option string) (library_data : list book)
    (page_size page_num : Z) (reply : string) (rest : list string) (w : world) :
  Py.slice library_data (page_num * page_size) (page_num * page_size + page_size) <> [] ->
  prompts w = reply :: rest ->
  Py.isdigit (Py.lower reply) = false ->
  Py.lower reply <> "n" -> Py.lower reply <> "p" -> Py.lower reply <> "q" ->
  forall fuel : nat,
    browse_loop (S fuel) output_dir keep_files profile library_data
      page_size page_num w
    = browse_loop fuel output_dir keep_files profile library_data page_size
        page_num
        (add_output (Secho "Invalid input." "yellow")
           (page_shown library_data page_size page_num rest w)).
Proof.
  intros Hpage Hprompt Hdigit Hn Hp Hq fuel. cbn [browse_loop].
  rewrite (browse_iteration_prompted _ _ _ _ _ _ _ _ _ Hpage Hprompt).
  unfold respond. rewrite Hdigit.
  apply String.eqb_neq in Hn, Hp, Hq. rewrite Hn, Hp, Hq. reflexivity.
Qed.

(** A turn that continues has read one reply. *)
Lemma browse_iteration_consumes (output_dir : Path.t) (keep_files : bool)
    (profile : option string) (library_data : list book)
    (page_size page_num page_num' : Z) (w w' : world) :
  Py.slice library_data (page_num * page_size) (page_num * page_size + page_size) <> [] ->
  browse_iteration output_dir keep_files profile library_data page_size page_num w
  = (Ret (Continue page_num'), w') ->
  exists reply, prompts w = reply :: prompts w'.
Proof.
  intros Hpage Hturn.
  destruct (prompts w) as [|reply rest] eqn:Hprompt.
  - destruct (browse_iteration_eof output_dir keep_files profile _ _ _ _ Hpage Hprompt)
      as [w2 Heof].
    rewrite Heof in Hturn. discriminate.
  - exists reply. f_equal.
    rewrite (browse_iteration_prompted _ _ _ _ _ _ _ _ _ Hpage Hprompt) in Hturn.
    unfold respond, bind, echo, secho, emit, ret, raise in Hturn.
    destruct (Py.isdigit (Py.lower reply)).
    + destruct (Py.int (Py.lower reply)) as [choice|]; [|discriminate].
      destruct ((1 <=? choice) && (choice <=? Z.of_nat (length library_data))).
      * destruct (library_data !! Z.to_nat (choice - 1)) as [chosen|]; [|discriminate].
        destruct (process_book (asin chosen) output_dir keep_files profile _)
          as [[[]|e|c] w2]; discriminate.
      * injection Hturn as _ <-. reflexivity.
    + destruct (String.eqb (Py.lower reply) "n").
      { destruct (page_num * page_size + page_size <? Z.of_nat (length library_data));
          injection Hturn as _ <-; reflexivity. }
      destruct (String.eqb (Py.lower reply) "p").
      { destruct (0 <? page_num); injection Hturn as _ <-; reflexivity. }
      destruct (String.eqb (Py.lower reply) "q"); [discriminate|].
      injection Hturn as _ <-. reflexivity.
Qed.

(** X4: with a positive page size the loop ends: from any page within the
    listing it returns within one turn more than there are pending
    replies (the end of the input raises [click.Abort]). *)
Theorem browse_loop_terminates (output_dir : Path.t) (keep_files : bool)
    (profile : option string) (library_data : list book) (page_size : Z)
    (fuel : nat) (page_num : Z) (w : world) :
  0 < page_size -> 0 <= page_num ->
  page_num * page_size < Z.of_nat (length library_data) ->
  (length (prompts w) < fuel)%nat ->
  is_Some (browse_loop fuel output_dir keep_files profile library_data
             page_size page_num w).
Proof.
  intros Hps. revert page_num w.
  induction fuel as [|fuel IH]; intros page_num w H0 Hin Hfuel; [lia|].
  cbn [browse_loop].
  pose proof (page_nonempty _ _ _ Hps H0 Hin) as Hpage.
  destruct (browse_iteration output_dir keep_files profile library_data
              page_size page_num w) as [[[page_num'|]|e|c] w'] eqn:Hturn; eauto.
  destruct (browse_iteration_consumes _ _ _ _ _ _ _ _ _ Hpage Hturn) as [reply Hreply].
  apply browse_iteration_continue in Hturn as [[Hempty _] | [_ Hmove]];
    [contradiction|].
  apply IH.
  - destruct Hmove as [-> | [[-> _] | [-> Hprev]]]; lia.
  - destruct Hmove as [-> | [[-> Hnext] | [-> Hprev]]]; [exact Hin | lia | nia].
  - rewrite Hreply in Hfuel. simpl in Hfuel. lia.
Qed.

(** X5: with a page size of zero every page is empty: each turn prints
    [No more books.], steps the index back and asks nothing, so the loop
    does not end within any number of turns. *)
Theorem zero_page_size_never_prompts (output_dir : Path.t) (keep_files : bool)
    (profile : option string) (library_data : list book) :
  (forall (page_num : Z) (w : world),
      browse_iteration output_dir keep_files profile library_data 0 page_num w
      = (Ret (Continue (page_num - 1)), add_output (Echo "No more books.") w)) /\
  (forall (fuel : nat) (page_num : Z) (w : world),
      browse_loop fuel output_dir keep_files profile library_data 0 page_num w
      = None).
Proof.
  assert (Hturn : forall (page_num : Z) (w : world),
      browse_iteration output_dir keep_files profile library_data 0 page_num w
      = (Ret (Continue (page_num - 1)), add_output (Echo "No more books.") w)).
  { intros page_num w. unfold browse_iteration. cbv zeta.
    rewrite Z.mul_0_r, Z.add_0_l.
    replace (Py.slice library_data 0 0) with (@nil book); [reflexivity|].
    unfold Py.slice. cbn [Z.ltb Z.compare].
    rewrite Z.min_l by lia. reflexivity. }
  split; [exact Hturn|].
  induction fuel as [|fuel IH]; intros page_num w; cbn [browse_loop];
    [reflexivity|].
  rewrite Hturn. apply IH.
Qed.

(** X6: a reply that [isdigit] accepts but that holds a digit other than
    0-9 (a superscript) is not caught: [int] raises [ValueError], which
    leaves the loop as an exception. *)
Theorem superscript_digits_raise (output_dir : Path.t) (keep_files : bool)
    (profile : option string) (library_data : list book)
    (page_size page_num : Z) (reply : string) (rest : list string) (w : world) :
  Py.slice library_data (page_num * page_size) (page_num * page_size + page_size) <> [] ->
  prompts w = reply :: rest ->
  Py.isdigit (Py.lower reply) = true ->
  Py.all_chars Py.is_ascii_digit (Py.lower reply) = false ->
  forall fuel : nat,
    browse_loop (S fuel) output_dir keep_files profile library_data
      page_size page_num w
    = Some (Raise (PyError "ValueError"
                     ("invalid literal for int() with base 10: '"
                      +:+ Py.lower reply +:+ "'")),
            page_shown library_data page_size page_num rest w).
Proof.
  intros Hpage Hprompt Hdigit Hsuper fuel. cbn [browse_loop].
  rewrite (browse_iteration_prompted _ _ _ _ _ _ _ _ _ Hpage Hprompt).
  unfold respond. rewrite Hdigit.
  assert (Hint : Py.int (Py.lower reply) = None).
  { unfold Py.int. destruct (Py.lower reply); [reflexivity|].
    now apply int_digits_refuses. }
  rewrite Hint. reflexivity.
Qed.

(** X7: a turn depends on the reply through its lower-case form only:
    typing a reply in capitals has the effect of typing it in small
    letters. *)
Theorem replies_are_case_insensitive (output_dir : Path.t) (keep_files : bool)
    (profile : option string) (library_data : list book)
    (page_size page_num : Z) (reply : string) (rest : list string) (w : world) :
  Py.slice library_data (page_num * page_size) (page_num * page_size + page_size) <> [] ->
  prompts w = reply :: rest ->
  browse_iteration output_dir keep_files profile library_data page_size page_num w
  = browse_iteration output_dir keep_files profile library_data page_size page_num
      (set_prompts (Py.lower reply :: rest) w).
Proof.
  intros Hpage Hprompt.
  rewrite (browse_iteration_prompted _ _ _ _ _ _ _ _ _ Hpage Hprompt).
  rewrite (browse_iteration_prompted _ _ _ _ _ _ (Py.lower reply) rest
             (set_prompts (Py.lower reply :: rest) w) Hpage eq_refl).
  now rewrite lower_idempotent.
Qed.

(** ** More on the listing parser *)

Lemma with_output_nil (w : world) : with_output [] w = w.
Proof. destruct w. unfold with_output. cbn. now rewrite app_nil_r. Qed.

Lemma with_output_app (l1 l2 : list event) (w : world) :
  with_output l2 (with_output l1 w) = with_output (l1 ++ l2) w.
Proof. unfold with_output. cbn. now rewrite app_assoc. Qed.

Lemma parse_library_line_cases (library_data : list book) (line : string)
    (w : world) :
  (line = "" /\ parse_library_line library_data line w = (Ret library_data, w)) \/
  (line <> "" /\ exists b,
      parse_library_line library_data line w = (Ret (library_data ++ [b]), w)) \/
  (line <> "" /\
   parse_library_line library_data line w
   = (Ret library_data, with_output [unparsed line] w)).
Proof.
  unfold parse_library_line.
  destruct (String.eqb line "") eqn:E.
  - left. apply String.eqb_eq in E. now split.
  - right. apply String.eqb_neq in E.
    destruct (map Py.strip (Py.split_max ":" 2 line)) as [|a [|b [|c [|d l]]]];
      try (right; split; [exact E | reflexivity]).
    left. split; [exact E|]. eexists. reflexivity.
Qed.

Lemma parse_lines_account (lines : list string) (library_data : list book)
    (w : world) :
  exists (parsed : list book) (skipped : list string),
    for_each parse_library_line library_data lines w
    = (Ret (library_data ++ parsed), with_output (map unparsed skipped) w) /\
    (length parsed + length skipped
     = length (List.filter (fun l => negb (String.eqb l "")) lines))%nat /\
    Forall (fun l => In l lines) skipped.
Proof.
  revert library_data w.
  induction lines as [|line lines IH]; intros library_data w.
  - exists [], []. cbn. rewrite app_nil_r, with_output_nil. auto.
  - cbn [for_each]. unfold bind at 1.
    destruct (parse_library_line_cases library_data line w)
      as [[-> Hrun] | [[Hne [b Hrun]] | [Hne Hrun]]]; rewrite Hrun.
    + destruct (IH library_data w) as (parsed & skipped & Hrest & Hlen & Hin).
      exists parsed, skipped. split; [exact Hrest|]. split; [exact Hlen|].
      eapply Forall_impl; [exact Hin|]. intros l Hl. now right.
    + destruct (IH (library_data ++ [b]) w) as (parsed & skipped & Hrest & Hlen & Hin).
      exists (b :: parsed), skipped.
      rewrite Hrest, <- app_assoc. split; [reflexivity|]. split.
      * cbn [List.filter]. apply String.eqb_neq in Hne. rewrite Hne. cbn. lia.
      * eapply Forall_impl; [exact Hin|]. intros l Hl. now right.
    + destruct (IH library_data (with_output [unparsed line] w))
        as (parsed & skipped & Hrest & Hlen & Hin).
      exists parsed, (line :: skipped).
      rewrite Hrest, with_output_app. split; [reflexivity|]. split.
      * cbn [List.filter]. apply String.eqb_neq in Hne. rewrite Hne. cbn. lia.
      * constructor; [now left|].
        eapply Forall_impl; [exact Hin|]. intros l Hl. now right.
Qed.

(** X8: the parser never fails and touches nothing but the terminal: of
    the non-empty lines of the stripped text, each one yields either a
    record or one warning that quotes it. *)
Theorem parse_accounts_for_every_line (text_output : string) (w : world) :
  exists (library_data : list book) (skipped : list string),
    parse_library_list_output text_output w
    = (Ret library_data, with_output (map unparsed skipped) w) /\
    (length library_data + length skipped
     = length (List.filter (fun l => negb (String.eqb l ""))
                 (Py.split Py.LF (Py.strip text_output))))%nat /\
    Forall (fun l => In l (Py.split Py.LF (Py.strip text_output))) skipped.
Proof.
  unfold parse_library_list_output.
  destruct (parse_lines_account (Py.split Py.LF (Py.strip text_output)) [] w)
    as (parsed & skipped & Hrun & Hlen & Hin).
  exists parsed, skipped. auto.
Qed.

Lemma string_app_nil (s : string) : s +:+ "" = s.
Proof.
  induction s as [|c s IH]; [reflexivity | exact (f_equal (String c) IH)].
Qed.

Lemma lstrip_length (s : string) :
  (String.length (Py.lstrip s) <= String.length s)%nat.
Proof.
  induction s as [|c s IH]; simpl; [lia|].
  destruct (Py.isspace c); simpl; lia.
Qed.

Lemma rstrip_length (s : string) :
  (String.length (Py.rstrip s) <= String.length s)%nat.
Proof.
  induction s as [|c s IH]; simpl; [lia|].
  destruct (Py.rstrip s); [destruct (Py.isspace c)|]; simpl in *; lia.
Qed.

Lemma strip_fixed (f : string) :
  Py.strip f = f -> Py.lstrip f = f /\ Py.rstrip f = f.
Proof.
  intros Hstrip.
  assert (Hl : Py.lstrip f = f).
  { pose proof (rstrip_length (Py.lstrip f)) as H1.
    fold (Py.strip f) in H1. rewrite Hstrip in H1.
    destruct f as [|c f]; [reflexivity|]. simpl in *.
    destruct (Py.isspace c); [|reflexivity].
    pose proof (lstrip_length f). lia. }
  split; [exact Hl|]. unfold Py.strip in Hstrip. now rewrite Hl in Hstrip.
Qed.

Lemma rstrip_cons (c : ascii) (s : string) :
  Py.isspace c = false -> Py.rstrip (String c s) = String c (Py.rstrip s).
Proof. intros Hc. simpl. destruct (Py.rstrip s); [now rewrite Hc | reflexivity]. Qed.

Lemma rstrip_app (a b : string) :
  Py.rstrip b <> "" -> Py.rstrip (a +:+ b) = a +:+ Py.rstrip b.
Proof.
  intros Hb. induction a as [|c a IH]; [reflexivity|].
  change (String c a +:+ b) with (String c (a +:+ b)).
  cbn [Py.rstrip]. rewrite IH.
  change (String c a +:+ Py.rstrip b) with (String c (a +:+ Py.rstrip b)).
  destruct (a +:+ Py.rstrip b) eqn:E; [|reflexivity].
  destruct a; [contradiction | discriminate].
Qed.

Lemma in_rstrip (c : ascii) (s : string) :
  In c (list_ascii_of_string (Py.rstrip s)) -> In c (list_ascii_of_string s).
Proof.
  induction s as [|x s IH]; simpl; [exact (fun H => H)|].
  destruct (Py.rstrip s) eqn:E.
  - destruct (Py.isspace x); simpl.
    + intros [].
    + intros [H | []]. left. exact H.
  - simpl. intros [H | H]; [left; exact H | right; exact (IH H)].
Qed.

Lemma split_no_lf (s : string) :
  ~ In Py.LF (list_ascii_of_string s) -> Py.split Py.LF s = [s].
Proof.
  induction s as [|c s IH]; simpl; intros Hlf; [reflexivity|].
  destruct (Ascii.eqb c Py.LF) eqn:E.
  - apply Ascii.eqb_eq in E. exfalso. apply Hlf. now left.
  - rewrite IH; [reflexivity | intros H; apply Hlf; now right].
Qed.

Lemma split_app_lf (a b : string) :
  ~ In Py.LF (list_ascii_of_string a) ->
  Py.split Py.LF (a +:+ String Py.LF b) = a :: Py.split Py.LF b.
Proof.
  induction a as [|c a IH]; intros Hlf.
  - reflexivity.
  - change (String c a +:+ String Py.LF b) with (String c (a +:+ String Py.LF b)).
    cbn [Py.split].
    destruct (Ascii.eqb c Py.LF) eqn:E.
    + apply Ascii.eqb_eq in E. exfalso. apply Hlf. now left.
    + rewrite IH; [reflexivity | intros H; apply Hlf; now right].
Qed.

Lemma strip_after_space (f : string) : Py.strip f = f -> Py.strip (String " " f) = f.
Proof. intros H. exact H. Qed.

Lemma strip_rstrip_after_space (f : string) :
  Py.strip f = f -> Py.strip (Py.rstrip (String " " f)) = f.
Proof.
  intros Hstrip. destruct (strip_fixed f Hstrip) as [_ Hr].
  cbn [Py.rstrip]. rewrite Hr.
  destruct f as [|c f]; [reflexivity | exact Hstrip].
Qed.

(** A line built from an identifier, an author and a tail whose stripped
    form is the title is read as that record. *)
Lemma parse_library_line_fields (asin author tail title : string)
    (library_data : list book) (w : world) :
  Py.strip asin = asin -> Py.strip author = author -> Py.strip tail = title ->
  ~ In ":"%char (list_ascii_of_string asin) ->
  ~ In ":"%char (list_ascii_of_string author) ->
  parse_library_line library_data
    (asin +:+ String ":" (String " " author +:+ String ":" tail)) w
  = (Ret (library_data ++ [Book asin title [Author author]]), w).
Proof.
  intros Ha Hau Ht Hca Hcau. unfold parse_library_line.
  rewrite append_colon_nonempty.
  change (asin +:+ String ":" (String " " author +:+ String ":" tail))
    with (asin +:+ ":" +:+ String " " author +:+ ":" +:+ tail).
  rewrite split_two_colons; [|exact Hca|].
  - cbn [map]. rewrite Ha, Ht. rewrite (strip_after_space author Hau). reflexivity.
  - simpl. intros [H | H]; [discriminate | contradiction].
Qed.

Lemma listing_line_shape (asin author title : string) :
  listing_line (asin, author, title)
  = asin +:+ String ":" (String " " author +:+ String ":" (String " " title)).
Proof.
  unfold listing_line.
  change (": " +:+ author +:+ ": " +:+ title)
    with (String ":" (String " " (author +:+ String ":" (String " " title)))).
  reflexivity.
Qed.

Lemma listing_line_no_lf (entry : string * string * string) :
  tidy_entry entry -> ~ In Py.LF (list_ascii_of_string (listing_line entry)).
Proof.
  destruct entry as [[asin author] title].
  intros ((_ & Ha) & (_ & Hau) & (_ & Ht) & _).
  rewrite listing_line_shape. rewrite chars_app. cbn [list_ascii_of_string].
  rewrite chars_app. cbn [list_ascii_of_string].
  intros H. apply in_app_or in H as [H | [H | [H | H]]];
    [contradiction | discriminate | discriminate |].
  apply in_app_or in H as [H | [H | [H | H]]];
    [contradiction | discriminate | discriminate | contradiction].
Qed.

Lemma rstrip_listing_line (asin author title : string) :
  Py.rstrip (listing_line (asin, author, title))
  = asin +:+ String ":" (String " " author +:+ String ":" (Py.rstrip (String " " title))).
Proof.
  rewrite listing_line_shape.
  assert (Hcolon : forall s, Py.rstrip (String ":" s) = String ":" (Py.rstrip s))
    by (intros s; now apply rstrip_cons).
  assert (Hinner : Py.rstrip (String " " author +:+ String ":" (String " " title))
                   = String " " author +:+ String ":" (Py.rstrip (String " " title))).
  { rewrite rstrip_app; rewrite Hcolon; [reflexivity | discriminate]. }
  rewrite rstrip_app; rewrite Hcolon, Hinner; [reflexivity | discriminate].
Qed.

Lemma parse_listing_line (entry : string * string * string)
    (library_data : list book) (w : world) :
  tidy_entry entry ->
  parse_library_line library_data (listing_line entry) w
  = (Ret (library_data ++ [entry_book entry]), w) /\
  parse_library_line library_data (Py.rstrip (listing_line entry)) w
  = (Ret (library_data ++ [entry_book entry]), w).
Proof.
  destruct entry as [[asin author] title].
  intros ((Ha & _) & (Hau & _) & (Ht & _) & Hca & Hcau). split.
  - rewrite listing_line_shape.
    now apply parse_library_line_fields.
  - rewrite rstrip_listing_line.
    apply parse_library_line_fields; try assumption.
    now apply strip_rstrip_after_space.
Qed.

Lemma rstrip_listing_line_nonempty (entry : string * string * string) :
  Py.rstrip (listing_line entry) <> "".
Proof.
  destruct entry as [[asin author] title]. rewrite rstrip_listing_line.
  destruct asin; discriminate.
Qed.

(** The lines of a listing, read back from their [rstrip]ped join. *)
Lemma parse_joined_lines (entry : string * string * string)
    (entries : list (string * string * string)) (library_data : list book)
    (w : world) :
  Forall tidy_entry (entry :: entries) ->
  Py.rstrip (Py.join NL (map listing_line (entry :: entries))) <> "" /\
  for_each parse_library_line library_data
    (Py.split Py.LF (Py.rstrip (Py.join NL (map listing_line (entry :: entries))))) w
  = (Ret (library_data ++ map entry_book (entry :: entries)), w).
Proof.
  revert entry library_data.
  induction entries as [|next entries IH]; intros entry library_data Htidy.
  - apply Forall_inv in Htidy.
    cbn [map Py.join String.concat]. split; [apply rstrip_listing_line_nonempty|].
    rewrite split_no_lf.
    + cbn [for_each]. unfold bind.
      rewrite (proj2 (parse_listing_line entry library_data w Htidy)). reflexivity.
    + intros H. apply in_rstrip in H. exact (listing_line_no_lf entry Htidy H).
  - pose proof (Forall_inv Htidy) as Hentry.
    apply Forall_inv_tail in Htidy.
    destruct (IH next (library_data ++ [entry_book entry]) Htidy) as [Hne Hrest].
    change (Py.join NL (map listing_line (entry :: next :: entries)))
      with (listing_line entry +:+ NL +:+ Py.join NL (map listing_line (next :: entries))).
    rewrite <- string_app_assoc.
    rewrite rstrip_app by exact Hne. rewrite string_app_assoc.
    split.
    + destruct (listing_line entry); discriminate.
    + change (NL +:+ Py.rstrip (Py.join NL (map listing_line (next :: entries))))
        with (String Py.LF (Py.rstrip (Py.join NL (map listing_line (next :: entries))))).
      rewrite split_app_lf by exact (listing_line_no_lf entry Hentry).
      cbn [for_each]. unfold bind at 1.
      rewrite (proj1 (parse_listing_line entry library_data w Hentry)).
      rewrite Hrest, <- app_assoc. reflexivity.
Qed.

Lemma lstrip_joined_lines (entry : string * string * string)
    (entries : list (string * string * string)) :
  tidy_entry entry ->
  Py.lstrip (Py.join NL (map listing_line (entry :: entries)))
  = Py.join NL (map listing_line (entry :: entries)).
Proof.
  intros Htidy.
  assert (Hhead : exists tail,
             Py.join NL (map listing_line (entry :: entries))
             = listing_line entry +:+ tail).
  { destruct entries as [|next entries].
    - exists "". cbn [map Py.join String.concat]. symmetry. apply string_app_nil.
    - eexists. reflexivity. }
  destruct Hhead as [tail ->].
  destruct entry as [[asin author] title].
  destruct Htidy as ((Ha & _) & _).
  rewrite listing_line_shape.
  destruct asin as [|c asin]; [reflexivity|].
  apply strip_fixed in Ha as [Hl _]. simpl in Hl |- *.
  destruct (Py.isspace c); [|reflexivity].
  exfalso. pose proof (lstrip_length asin) as Hlen. rewrite Hl in Hlen.
  simpl in Hlen. lia.
Qed.

(** X9: a listing written in the [ASIN: Author: Title] format, one entry
    per line, is read back entry for entry, in order and with no warning,
    provided that [strip] leaves each field alone, that no field holds a
    line feed, and that identifiers and authors hold no colon (titles may,
    and may be empty). *)
Theorem parse_reads_back_a_listing (entries : list (string * string * string))
    (w : world) :
  Forall tidy_entry entries ->
  parse_library_list_output (Py.join NL (map listing_line entries)) w
  = (Ret (map entry_book entries), w).
Proof.
  intros Htidy. destruct entries as [|entry entries]; [reflexivity|].
  unfold parse_library_list_output, Py.strip.
  rewrite (lstrip_joined_lines entry entries (Forall_inv Htidy)).
  exact (proj2 (parse_joined_lines entry entries [] w Htidy)).
Qed.

(** ** More on the sort dialogue *)

(** X10: only [newest_first] is compared against: an unset default counts
    as [newest_first], and any other configured value behaves as
    [oldest_first] (the order is kept on a confirmation, reversed and
    announced as newest first on a decline); at the end of the input the
    dialogue raises [click.Abort]. *)
Theorem sort_default_and_other_values (cfg : config)
    (library_data : list book) (w : world) :
  let sort_order := default "newest_first" (default_sort cfg) in
  let asked :=
    add_output (AskConfirm ("Sort by '" +:+ Py.replace "_" " " sort_order +:+ "'?")) w in
  (forall rest,
      default_sort cfg = None -> confirms w = true :: rest ->
      apply_sort cfg library_data w = (Ret (rev library_data), set_confirms rest asked)) /\
  (forall rest,
      default_sort cfg = None -> confirms w = false :: rest ->
      apply_sort cfg library_data w
      = (Ret library_data,
         add_output (Echo "Sorting by oldest first.") (set_confirms rest asked))) /\
  (forall rest,
      sort_order <> "newest_first" -> confirms w = true :: rest ->
      apply_sort cfg library_data w = (Ret library_data, set_confirms rest asked)) /\
  (forall rest,
      sort_order <> "newest_first" -> confirms w = false :: rest ->
      apply_sort cfg library_data w
      = (Ret (rev library_data),
         add_output (Echo "Sorting by newest first.") (set_confirms rest asked))) /\
  (confirms w = [] ->
   apply_sort cfg library_data w = (Raise (PyError "Abort" ""), asked)).
Proof.
  intros sort_order asked. subst sort_order asked.
  unfold apply_sort, bind, confirm, other_sort, echo, emit, ret.
  repeat split.
  - intros rest Hcfg Hconf. rewrite Hcfg, Hconf. reflexivity.
  - intros rest Hcfg Hconf. rewrite Hcfg, Hconf. reflexivity.
  - intros rest Hother Hconf. rewrite Hconf.
    apply String.eqb_neq in Hother. now rewrite Hother.
  - intros rest Hother Hconf. rewrite Hconf.
    apply String.eqb_neq in Hother. now rewrite Hother.
  - intros Hconf. now rewrite Hconf.
Qed.

(** ** More on the pipeline: what each stage leaves behind *)

Lemma download_audiobook_eq (asin : string) (output_dir : Path.t)
    (profile : option string) (w : world) :
  download_audiobook asin output_dir profile w
  = (match fst (subprocess_run (download_cmd asin output_dir profile) (files w)) with
     | Completed rc _ err =>
         if rc =? 0 then Ret (true, None)
         else Ret (false, Some ("Download failed:" +:+ NL +:+ err))
     | NotStarted (CalledProcessError _ _ err) =>
         Ret (false, Some ("Download failed:" +:+ NL +:+ err))
     | NotStarted e => Raise e
     end,
     set_files (snd (subprocess_run (download_cmd asin output_dir profile) (files w)))
       (add_launched (download_cmd asin output_dir profile) w)).
Proof.
  unfold download_audiobook, try_except, run_command, bind, run, ret, raise.
  destruct (fst (subprocess_run (download_cmd asin output_dir profile) (files w)))
    as [rc out err | e].
  - destruct (rc =? 0); reflexivity.
  - destruct e; reflexivity.
Qed.

Lemma mkdir_parents_frame (p : Path.t) (w : world) :
  mkdir_parents p w = (Ret tt, w) \/
  mkdir_parents p w = (Raise (PyError "FileExistsError" (Path.str p)), w).
Proof. unfold mkdir_parents. destruct (forallb _ _); auto. Qed.

Ltac frame_closed :=
  repeat split; intros; first [reflexivity | discriminate | congruence].

(** Reading the voucher changes nothing, never exits, and only returns
    values that Python counts as true. *)
Lemma get_aaxc_credentials_outcome (voucher_file : Path.t) (w : world) :
  exists o,
    get_aaxc_credentials voucher_file w = (o, w) /\
    (forall c, o <> Exit c) /\
    (forall key iv, o = Ret (key, iv) -> truthy key = true /\ truthy iv = true).
Proof.
  destruct (files w !! voucher_file) as [text|] eqn:Hfile.
  2: { rewrite (get_aaxc_credentials_missing _ _ Hfile).
       eexists. split; [reflexivity | frame_closed]. }
  destruct (json_loads text) as [e|v] eqn:Hjson.
  { unfold get_aaxc_credentials, path_exists, read_text, loads.
    unfold bind at 1. rewrite Hfile, bool_decide_eq_true_2 by eauto. cbn [negb].
    unfold bind at 1. rewrite Hfile.
    unfold bind at 1. rewrite Hjson.
    eexists. split; [reflexivity | frame_closed]. }
  rewrite (get_aaxc_credentials_decoded _ _ _ _ Hfile Hjson).
  unfold bind at 1, dict_get at 1.
  destruct v as [| | | | | |m];
    try (eexists; split; [reflexivity | frame_closed]).
  unfold ret at 1. unfold bind at 1, dict_get at 1.
  destruct (match m !! "content_license" with Some x => x | None => JObject ∅ end)
    as [| | | | | |m1];
    try (eexists; split; [reflexivity | frame_closed]).
  unfold ret at 1. unfold bind at 1, dict_get at 1.
  destruct (match m1 !! "license_response" with Some x => x | None => JObject ∅ end)
    as [| | | | | |m2];
    try (eexists; split; [reflexivity | frame_closed]).
  cbv beta iota delta [bind ret dict_get].
  destruct (truthy (match m2 !! "key" with Some x => x | None => JNull end)) eqn:Hk;
    destruct (truthy (match m2 !! "iv" with Some x => x | None => JNull end)) eqn:Hi;
    cbn [negb orb];
    (eexists; split; [reflexivity|]);
    repeat split; intros; congruence.
Qed.

Lemma get_aaxc_credentials_frame (voucher_file : Path.t) (w : world) :
  snd (get_aaxc_credentials voucher_file w) = w /\
  (forall c, fst (get_aaxc_credentials voucher_file w) <> Exit c) /\
  (forall key iv,
      fst (get_aaxc_credentials voucher_file w) = Ret (key, iv) ->
      truthy key = true /\ truthy iv = true).
Proof.
  destruct (get_aaxc_credentials_outcome voucher_file w) as (o & -> & Hexit & Hret).
  auto.
Qed.

(** The decryption with a key and an initialisation vector that are both
    strings: the transcoder is launched once and judged. *)
Lemma decrypt_audiobook_strings (input_file output_dir target : Path.t)
    (key iv : string) (w : world) :
  Path.with_suffix ".m4b" input_file = Some target ->
  decrypt_audiobook input_file output_dir (JString key, JString iv) w
  = let output_file := Path.div output_dir (Path.name target) in
    let cmd := decrypt_cmd key iv input_file output_file in
    let ran := subprocess_run cmd (files w) in
    let w1 := set_files (snd ran) (add_launched cmd w) in
    match fst ran with
    | NotStarted e =>
        (Ret (false, None),
         add_output (Secho ("Decryption error: " +:+ str_of_exn e) "red") w1)
    | Completed rc _ err =>
        if rc =? 0 then
          match snd ran !! output_file with
          | Some data =>
              if Z.of_nat (String.length data) =? 0
              then (Ret (false, None),
                    add_output (Secho "Error: FFmpeg created an empty output file." "red") w1)
              else (Ret (true, Some output_file), w1)
          | None =>
              (Ret (false, None),
               add_output (Secho "Error: FFmpeg created an empty output file." "red") w1)
          end
        else (Ret (false, None), add_output (Secho ("FFmpeg error: " +:+ err) "red") w1)
    end.
Proof.
  intros Htarget. cbv zeta.
  unfold decrypt_audiobook, with_suffix. rewrite Htarget.
  unfold bind at 1. unfold ret at 1.
  unfold try_except, bind, decrypt_args, ret, run, path_exists, st_size,
    secho, emit.
  world_simpl.
  set (output_file := Path.div output_dir (Path.name target)).
  set (ran := subprocess_run (decrypt_cmd key iv input_file output_file) (files w)).
  destruct (fst ran) as [rc out err | e]; [|reflexivity].
  destruct (rc =? 0); cbn [negb]; [|reflexivity]. world_simpl.
  destruct (snd ran !! output_file) as [data|] eqn:Efile.
  - rewrite bool_decide_eq_true_2 by eauto. world_simpl. rewrite Efile.
    world_simpl. destruct (Z.of_nat (String.length data) =? 0); reflexivity.
  - rewrite bool_decide_eq_false_2 by (intros [? ?]; discriminate). reflexivity.
Qed.

(** With a credential that is not a string, nothing is launched. *)
Lemma decrypt_audiobook_not_strings (input_file output_dir target : Path.t)
    (credentials : json * json) (w : world) :
  Path.with_suffix ".m4b" input_file = Some target ->
  both_strings credentials = false ->
  exists message,
    decrypt_audiobook input_file output_dir credentials w
    = (Ret (false, None), add_output (Secho message "red") w).
Proof.
  intros Htarget Hnot.
  unfold decrypt_audiobook, with_suffix. rewrite Htarget.
  unfold bind at 1. unfold ret at 1.
  unfold try_except, bind, decrypt_args, raise, secho, emit, ret.
  destruct credentials as [[] []]; try discriminate Hnot; eexists; reflexivity.
Qed.

(** X11: a key or an initialisation vector that the voucher holds as
    something other than a string makes the decryption fail before the
    transcoder is launched: failure with no path, one error message, no
    command and no change to the files. *)
Theorem decrypt_refuses_non_string_credentials (input_file output_dir target : Path.t)
    (credentials : json * json) (w : world) :
  Path.with_suffix ".m4b" input_file = Some target ->
  both_strings credentials = false ->
  exists w',
    decrypt_audiobook input_file output_dir credentials w = (Ret (false, None), w') /\
    launched w' = launched w /\ files w' = files w /\
    length (output w') = S (length (output w)).
Proof.
  intros Htarget Hnot.
  destruct (decrypt_audiobook_not_strings input_file output_dir target credentials w
              Htarget Hnot) as [message Hrun].
  eexists. split; [exact Hrun|]. world_simpl.
  repeat split. rewrite length_app. simpl. lia.
Qed.

(** X12: reading the voucher is free of effects: whatever the outcome, the
    world is as before (nothing printed, launched or written) and the
    process is not exited; and a pair that is returned holds a key and an
    initialisation vector that are both non-empty. *)
Theorem credentials_are_read_only (voucher_file : Path.t) (w : world) :
  exists outcome,
    get_aaxc_credentials voucher_file w = (outcome, w) /\
    (forall c, outcome <> Exit c) /\
    (forall key iv, outcome = Ret (key, iv) -> truthy key = true /\ truthy iv = true).
Proof.
  destruct (get_aaxc_credentials_frame voucher_file w) as (Hw & Hexit & Hret).
  exists (fst (get_aaxc_credentials voucher_file w)).
  split; [|split; assumption].
  rewrite <- Hw at 3. now destruct (get_aaxc_credentials voucher_file w).
Qed.

(** ** More on the cleanup *)

Lemma cleanup_one_eq (file : Path.t) (w : world) :
  exists w',
    cleanup_one file w = (Ret tt, w') /\
    files w' = delete file (files w) /\
    launched w' = launched w /\
    length (output w') = S (length (output w)).
Proof.
  unfold cleanup_one, try_except, bind, unlink, echo, secho, emit.
  destruct (files w !! file) as [data|] eqn:Efile.
  - eexists. split; [reflexivity|]. world_simpl.
    repeat split. rewrite length_app. simpl. lia.
  - eexists. split; [reflexivity|]. world_simpl.
    rewrite delete_id by exact Efile.
    repeat split. rewrite length_app. simpl. lia.
Qed.

Lemma cleanup_loop_eq (files_to_remove : list Path.t) (w : world) :
  exists w',
    for_each (fun _ file => cleanup_one file) tt files_to_remove w = (Ret tt, w') /\
    files w' = foldl (fun fs file => delete file fs) (files w) files_to_remove /\
    launched w' = launched w /\
    length (output w') = (length (output w) + length files_to_remove)%nat.
Proof.
  revert w. induction files_to_remove as [|file rest IH]; intros w.
  - exists w. cbn. repeat split. lia.
  - destruct (cleanup_one_eq file w) as (w1 & Hone & Hfiles & Hlaunched & Hout).
    destruct (IH w1) as (w' & Hrest & Hfiles' & Hlaunched' & Hout').
    exists w'. cbn [for_each]. unfold bind at 1. rewrite Hone.
    split; [exact Hrest|]. cbn [foldl]. rewrite Hfiles', Hfiles, Hlaunched', Hlaunched.
    repeat split. rewrite Hout', Hout. simpl. lia.
Qed.

Lemma lookup_deleted_all (l : list Path.t) (fs : gmap Path.t string) (p : Path.t) :
  (In p l -> foldl (fun fs file => delete file fs) fs l !! p = None) /\
  (~ In p l -> foldl (fun fs file => delete file fs) fs l !! p = fs !! p).
Proof.
  revert fs. induction l as [|q l IH]; intros fs; cbn [foldl].
  - split; [intros [] | reflexivity].
  - destruct (IH (delete q fs)) as [Hin Hout]. split.
    + intros [-> | Hp].
      * destruct (in_dec (fun x y : Path.t => decide (x = y)) p l) as [Hp | Hp];
          [now apply Hin | rewrite (Hout Hp); apply lookup_delete_eq].
      * now apply Hin.
    + intros Hnot. rewrite Hout by (intros Hp; apply Hnot; now right).
      apply lookup_delete_ne. intros ->. apply Hnot. now left.
Qed.

Lemma cleanup_files_eq (files_to_remove : list Path.t) (w : world) :
  exists w',
    cleanup_files files_to_remove w = (Ret tt, w') /\
    files w' = foldl (fun fs file => delete file fs) (files w) files_to_remove /\
    launched w' = launched w /\
    length (output w') = (length (output w) + 1 + length files_to_remove)%nat.
Proof.
  unfold cleanup_files. unfold bind at 1. unfold echo at 1, emit at 1.
  destruct (cleanup_loop_eq files_to_remove
              (add_output (Echo (NL +:+ "Cleaning up intermediate files...")) w))
    as (w' & Hloop & Hfiles & Hlaunched & Hout).
  exists w'. split; [exact Hloop|]. world_simpl.
  repeat split; try assumption.
  rewrite Hout, length_app. simpl. lia.
Qed.

(** X13: the cleanup is best effort and never fails: whatever the list
    (repeated or missing files included), it returns normally, none of the
    listed files exists afterwards, every other file is untouched, nothing
    is launched, and it prints one line per listed file after its heading. *)
Theorem cleanup_never_fails (files_to_remove : list Path.t) (w : world) :
  exists w',
    cleanup_files files_to_remove w = (Ret tt, w') /\
    (forall p, In p files_to_remove -> files w' !! p = None) /\
    (forall p, ~ In p files_to_remove -> files w' !! p = files w !! p) /\
    launched w' = launched w /\
    length (output w') = (length (output w) + 1 + length files_to_remove)%nat.
Proof.
  destruct (cleanup_files_eq files_to_remove w)
    as (w' & Hrun & Hfiles & Hlaunched & Hout).
  exists w'. split; [exact Hrun|]. rewrite Hfiles.
  split; [|split; [|split; assumption]]; intros p Hp;
    now apply lookup_deleted_all.
Qed.

(** ** More on the companion files *)

Lemma base_name_of_eq (stem : string) (w : world) :
  exists w',
    base_name_of stem w = (Ret (base_name stem), w') /\
    files w' = files w /\ launched w' = launched w /\
    (length (output w) <= length (output w') <= S (length (output w)))%nat.
Proof.
  unfold base_name_of, base_name.
  destruct (Re.search marker_pattern stem).
  - exists w. repeat split; lia.
  - eexists. unfold bind, secho, emit, ret. split; [reflexivity|]. world_simpl.
    repeat split; rewrite length_app; simpl; lia.
Qed.

Lemma get_related_files_eq (aaxc_file voucher : Path.t) (w : world) :
  Path.with_suffix ".voucher" aaxc_file = Some voucher ->
  exists w',
    get_related_files aaxc_file w
    = (Ret (List.filter (fun f => bool_decide (is_Some (files w !! f)))
              (related_candidates (files w) aaxc_file voucher)), w') /\
    files w' = files w /\ launched w' = launched w /\
    (length (output w) <= length (output w') <= S (length (output w)))%nat.
Proof.
  intros Hvoucher.
  destruct (base_name_of_eq (Path.stem aaxc_file) w)
    as (w' & Hbase & Hfiles & Hlaunched & Hout).
  exists w'. unfold get_related_files. unfold bind at 1. rewrite Hbase.
  unfold with_suffix. rewrite Hvoucher.
  unfold bind, ret, glob_in, existing, related_candidates. rewrite Hfiles.
  auto.
Qed.

(** X14: [get_related_files] only reads: it returns normally, changes no
    file and launches nothing; every path it returns exists; and the
    artifact, its voucher, the chapters file of the base name and every
    cover that the two patterns find are returned whenever they exist. *)
Theorem related_files_exist (aaxc_file voucher : Path.t) (w : world) :
  Path.with_suffix ".voucher" aaxc_file = Some voucher ->
  exists related w',
    get_related_files aaxc_file w = (Ret related, w') /\
    files w' = files w /\ launched w' = launched w /\
    (forall p, In p related -> is_Some (files w !! p)) /\
    (forall p, In p (related_candidates (files w) aaxc_file voucher) ->
               is_Some (files w !! p) -> In p related) /\
    In aaxc_file (related_candidates (files w) aaxc_file voucher) /\
    In voucher (related_candidates (files w) aaxc_file voucher).
Proof.
  intros Hvoucher.
  destruct (get_related_files_eq aaxc_file voucher w Hvoucher)
    as (w' & Hrun & Hfiles & Hlaunched & _).
  eexists _, w'. split; [exact Hrun|].
  split; [exact Hfiles|]. split; [exact Hlaunched|].
  split; [|split; [|split]].
  - intros p Hp. apply filter_In in Hp as [_ Hp].
    now apply bool_decide_eq_true_1 in Hp.
  - intros p Hp Hex. apply filter_In. split; [exact Hp|].
    now apply bool_decide_eq_true_2.
  - now left.
  - right. now left.
Qed.

(** ** The stages of [process_book] *)

Lemma with_suffix_both (p : Path.t) (s1 s2 : string) (q1 : Path.t) :
  Path.with_suffix s1 p = Some q1 -> exists q2, Path.with_suffix s2 p = Some q2.
Proof.
  unfold Path.with_suffix. destruct (String.eqb (Path.name p) ""); [discriminate|].
  eauto.
Qed.

(** How the acquisition ends: refused identifier; directory that cannot be
    made; something that goes wrong between the download and the launch of
    the transcoder; or a launched transcoder, judged. *)
Lemma acquire_cases (asin : string) (output_dir : Path.t)
    (profile : option string) (w w' : world) (o : outcome (Path.t * Path.t)) :
  acquire asin output_dir profile w = (o, w') ->
  let d := download_cmd asin output_dir profile in
  let fs_d := snd (subprocess_run d (files w)) in
  (validate_asin asin = false /\ o = Exit 1 /\
   launched w' = launched w /\ files w' = files w) \/
  (validate_asin asin = true /\ exists e,
      o = Raise e /\ w' = w /\ mkdir_parents output_dir w = (Raise e, w)) \/
  (validate_asin asin = true /\
   launched w' = launched w ++ [d] /\ files w' = fs_d /\
   ((exists e, o = Raise e /\ fst (subprocess_run d (files w)) = NotStarted e) \/
    o = Exit 1)) \/
  (validate_asin asin = true /\
   exists (aaxc_file voucher target : Path.t) (key iv : string),
     head (glob fs_d output_dir "*.aaxc") = Some aaxc_file /\
     Path.with_suffix ".voucher" aaxc_file = Some voucher /\
     Path.with_suffix ".m4b" aaxc_file = Some target /\
     let output_file := Path.div output_dir (Path.name target) in
     let x := decrypt_cmd key iv aaxc_file output_file in
     launched w' = launched w ++ [d; x] /\
     files w' = snd (subprocess_run x fs_d) /\
     (o = Exit 1 \/
      (o = Ret (aaxc_file, output_file) /\
       (exists out err, fst (subprocess_run x fs_d) = Completed 0 out err) /\
       exists data, files w' !! output_file = Some data /\
                    (0 < String.length data)%nat))).
Proof.
  intros Hrun d fs_d. unfold acquire in Hrun.
  destruct (validate_asin asin) eqn:Hvalid; cbn [negb] in Hrun.
  2: { left. unfold bind, secho, emit, sys_exit in Hrun.
       injection Hrun as <- <-. auto. }
  right. unfold bind at 1 in Hrun.
  destruct (mkdir_parents_frame output_dir w) as [Hmk | Hmk]; rewrite Hmk in Hrun.
  2: { left. injection Hrun as <- <-. split; [reflexivity|]. eauto. }
  right. unfold bind at 1 in Hrun. unfold echo at 1, emit at 1 in Hrun.
  unfold bind at 1 in Hrun. rewrite download_audiobook_eq in Hrun.
  world_simpl. fold d in Hrun. fold fs_d in Hrun.
  set (w_d := set_files fs_d _) in Hrun.
  assert (Hw_d : launched w_d = launched w ++ [d] /\ files w_d = fs_d)
    by (subst w_d; world_simpl; auto).
  destruct Hw_d as [Hl_d Hf_d].
  assert (Hfail : forall (m : string) (o1 : outcome (Path.t * Path.t)) (w1 : world),
             (secho m "red" ;; sys_exit 1) w_d = (o1, w1) ->
             launched w1 = launched w ++ [d] /\ files w1 = fs_d /\ o1 = Exit 1).
  { intros m o1 w1 H. unfold bind, secho, emit, sys_exit in H.
    injection H as <- <-. world_simpl. auto. }
  destruct (fst (subprocess_run d (files w))) as [rc out err | e] eqn:Eran.
  2: { left. split; [reflexivity|].
       destruct e as [m | c rc2 err | cls m]; cbn [fst snd negb] in Hrun.
       - injection Hrun as <- <-. repeat split; try assumption. left. eauto.
       - apply Hfail in Hrun as (? & ? & ->). auto.
       - injection Hrun as <- <-. repeat split; try assumption. left. eauto. }
  destruct (rc =? 0) eqn:Erc; cbn [fst snd negb] in Hrun.
  2: { left. split; [reflexivity|]. apply Hfail in Hrun as (? & ? & ->). auto. }
  unfold bind at 1 in Hrun. unfold find_aaxc_file at 1 in Hrun.
  rewrite Hf_d in Hrun.
  destruct (head (glob fs_d output_dir "*.aaxc")) as [aaxc_file|] eqn:Efound.
  2: { left. split; [reflexivity|]. apply Hfail in Hrun as (? & ? & ->). auto. }
  unfold bind at 1 in Hrun. unfold echo at 1, emit at 1 in Hrun.
  unfold bind at 1 in Hrun.
  set (w_f := add_output _ w_d) in Hrun.
  assert (Hw_f : launched w_f = launched w ++ [d] /\ files w_f = fs_d)
    by (subst w_f; world_simpl; auto).
  destruct Hw_f as [Hl_f Hf_f].
  unfold try_except at 1 in Hrun. unfold bind at 1 in Hrun.
  unfold with_suffix at 1 in Hrun.
  destruct (Path.with_suffix ".voucher" aaxc_file) as [voucher|] eqn:Evoucher.
  2: { left. split; [reflexivity|].
       unfold raise, bind, secho, emit, sys_exit in Hrun.
       injection Hrun as <- <-. subst w_f. world_simpl. auto. }
  unfold ret at 1 in Hrun. unfold bind at 1 in Hrun.
  destruct (get_aaxc_credentials_frame voucher w_f) as (Hc_w & Hc_exit & _).
  destruct (get_aaxc_credentials voucher w_f) as [[credentials | e | c] w_c] eqn:Ecred;
    cbn [fst snd] in Hc_w, Hc_exit; subst w_c.
  3: { exfalso. now apply (Hc_exit c). }
  2: { left. split; [reflexivity|].
       unfold bind, secho, emit, sys_exit in Hrun.
       injection Hrun as <- <-. world_simpl. auto. }
  unfold bind at 1 in Hrun. unfold echo at 1, emit at 1 in Hrun.
  unfold ret at 1 in Hrun.
  unfold bind at 1 in Hrun. unfold echo at 1, emit at 1 in Hrun.
  unfold bind at 1 in Hrun.
  set (w_k := add_output _ (add_output _ w_f)) in Hrun.
  assert (Hw_k : launched w_k = launched w ++ [d] /\ files w_k = fs_d)
    by (subst w_k; world_simpl; auto).
  destruct Hw_k as [Hl_k Hf_k].
  destruct (with_suffix_both aaxc_file ".voucher" ".m4b" voucher Evoucher)
    as [target Etarget].
  destruct (both_strings credentials) eqn:Estr.
  - right. split; [reflexivity|].
    destruct credentials as [[| | | | key | |] [| | | | iv | |]]; try discriminate Estr.
    exists aaxc_file, voucher, target, key, iv.
    split; [reflexivity|]. split; [exact Evoucher|]. split; [exact Etarget|].
    cbv zeta.
    rewrite (decrypt_audiobook_strings aaxc_file output_dir target key iv w_k Etarget)
      in Hrun.
    cbv zeta in Hrun. rewrite Hf_k in Hrun.
    set (output_file := Path.div output_dir (Path.name target)) in *.
    set (x := decrypt_cmd key iv aaxc_file output_file) in *.
    set (w_x := set_files (snd (subprocess_run x fs_d)) (add_launched x w_k)) in Hrun.
    assert (Hw_x : launched w_x = launched w ++ [d; x] /\
                   files w_x = snd (subprocess_run x fs_d)).
    { subst w_x. world_simpl. rewrite Hl_k, <- app_assoc. auto. }
    destruct Hw_x as [Hl_x Hf_x].
    assert (Hfail_x : forall (m1 m2 : string) (o1 : outcome (Path.t * Path.t)) (w1 : world),
               (secho m2 "red" ;; sys_exit 1) (add_output (Secho m1 "red") w_x) = (o1, w1) ->
               launched w1 = launched w ++ [d; x] /\
               files w1 = snd (subprocess_run x fs_d) /\ o1 = Exit 1).
    { intros m1 m2 o1 w1 H. unfold bind, secho, emit, sys_exit in H.
      injection H as <- <-. world_simpl. auto. }
    destruct (fst (subprocess_run x fs_d)) as [rc2 out2 err2 | e2] eqn:Ex.
    2: { apply Hfail_x in Hrun as (? & ? & ->). auto. }
    destruct (rc2 =? 0) eqn:Erc2.
    2: { apply Hfail_x in Hrun as (? & ? & ->). auto. }
    destruct (snd (subprocess_run x fs_d) !! output_file) as [data|] eqn:Edata.
    2: { apply Hfail_x in Hrun as (? & ? & ->). auto. }
    destruct (Z.of_nat (String.length data) =? 0) eqn:Esize.
    { apply Hfail_x in Hrun as (? & ? & ->). auto. }
    unfold ret in Hrun. injection Hrun as <- <-.
    split; [exact Hl_x|]. split; [exact Hf_x|]. right.
    split; [reflexivity|]. apply Z.eqb_eq in Erc2. subst rc2.
    split; [eauto|]. exists data. rewrite Hf_x. split; [exact Edata|].
    apply Z.eqb_neq in Esize. lia.
  - left. split; [reflexivity|].
    destruct (decrypt_audiobook_not_strings aaxc_file output_dir target credentials
                w_k Etarget Estr) as [message Hdec].
    rewrite Hdec in Hrun. unfold bind, secho, emit, sys_exit in Hrun.
    injection Hrun as <- <-. world_simpl. auto.
Qed.

Lemma report_success_eq (output_file : Path.t) (w : world) :
  exists w',
    report_success output_file w = (Ret tt, w') /\
    files w' = files w /\ launched w' = launched w.
Proof.
  unfold report_success, bind, secho, echo, emit, path_exists, st_size, ret.
  world_simpl.
  destruct (files w !! output_file) as [data|] eqn:Efile.
  - rewrite bool_decide_eq_true_2 by eauto. world_simpl. rewrite Efile.
    eexists. split; [reflexivity|]. world_simpl. auto.
  - rewrite bool_decide_eq_false_2 by (intros [? ?]; discriminate).
    eexists. split; [reflexivity|]. world_simpl. auto.
Qed.

(** How the second half of [process_book] ends, by the verdict of the
    verifier. *)
Lemma verify_and_finish_cases (keep_files : bool)
    (aaxc_file voucher output_file : Path.t) (w1 : world) :
  Path.with_suffix ".voucher" aaxc_file = Some voucher ->
  let v := verify_cmd output_file in
  let fs_v := snd (subprocess_run v (files w1)) in
  exists o w',
    verify_and_finish keep_files aaxc_file output_file w1 = (o, w') /\
    launched w' = launched w1 ++ [v] /\
    ((fst (verify_decrypted_file output_file w1) = Ret false /\
      o = Exit 1 /\ files w' = delete output_file fs_v) \/
     (fst (verify_decrypted_file output_file w1) = Ret true /\
      o = Ret tt /\
      files w' = if keep_files then fs_v
                 else foldl (fun fs file => delete file fs) fs_v
                        (List.filter (fun f => bool_decide (is_Some (fs_v !! f)))
                           (related_candidates fs_v aaxc_file voucher)))).
Proof.
  intros Hvoucher v fs_v.
  rewrite verify_decrypted_file_eq. cbn [fst]. fold v.
  unfold verify_and_finish. unfold bind at 1. unfold echo at 1, emit at 1.
  unfold bind at 1. rewrite verify_decrypted_file_eq. world_simpl.
  fold v. fold fs_v.
  set (w_v := set_files fs_v _).
  assert (Hw_v : launched w_v = launched w1 ++ [v] /\ files w_v = fs_v)
    by (subst w_v; world_simpl; auto).
  destruct Hw_v as [Hl_v Hf_v].
  destruct (match fst (subprocess_run v (files w1)) with
            | Completed returncode _ _ => returncode =? 0
            | NotStarted _ => false
            end); cbn [negb].
  - change (secho (NL +:+ "Process completed successfully!") "green" ;;
            echo ("Decrypted audiobook: " +:+ Path.name output_file) ;;
            present <- path_exists output_file ;;
            (if (present : bool)
             then size <- st_size output_file ;; emit (EchoFileSize size)
             else ret tt))
      with (report_success output_file).
    destruct keep_files; cbn [negb].
    + unfold bind at 1. unfold echo at 1, emit at 1.
      destruct (report_success_eq output_file
                  (add_output (Echo (NL +:+ "Keeping all intermediate files as requested.")) w_v))
        as (w' & Hrep & Hf & Hl).
      exists (Ret tt), w'. split; [exact Hrep|]. world_simpl.
      rewrite Hl, Hf. split; [exact Hl_v|]. right. auto.
    + unfold bind at 1. unfold bind at 1.
      destruct (get_related_files_eq aaxc_file voucher w_v Hvoucher)
        as (w_r & Hrel & Hf_r & Hl_r & _).
      rewrite Hrel.
      destruct (cleanup_files_eq
                  (List.filter (fun f => bool_decide (is_Some (files w_v !! f)))
                     (related_candidates (files w_v) aaxc_file voucher)) w_r)
        as (w_c & Hclean & Hf_c & Hl_c & _).
      rewrite Hclean.
      destruct (report_success_eq output_file w_c) as (w' & Hrep & Hf & Hl).
      exists (Ret tt), w'. split; [exact Hrep|].
      rewrite Hl, Hl_c, Hl_r, Hf, Hf_c, Hf_r, Hf_v.
      split; [exact Hl_v|]. right. auto.
  - unfold secho, emit, path_exists, unlink, sys_exit, bind, ret. world_simpl.
    destruct (files w_v !! output_file) as [data|] eqn:Efile.
    + rewrite bool_decide_eq_true_2 by eauto. world_simpl. rewrite Efile.
      eexists _, _. split; [reflexivity|]. world_simpl.
      rewrite Hf_v. split; [exact Hl_v|]. left. auto.
    + rewrite bool_decide_eq_false_2 by (intros [? ?]; discriminate).
      eexists _, _. split; [reflexivity|]. world_simpl.
      rewrite Hf_v in *. rewrite delete_id by exact Efile.
      split; [exact Hl_v|]. left. auto.
Qed.

(** What a successful acquisition has established. *)
Lemma acquire_success (asin : string) (output_dir : Path.t)
    (profile : option string) (w w1 : world) (aaxc_file output_file : Path.t) :
  acquire asin output_dir profile w = (Ret (aaxc_file, output_file), w1) ->
  let d := download_cmd asin output_dir profile in
  let fs_d := snd (subprocess_run d (files w)) in
  validate_asin asin = true /\
  exists (voucher target : Path.t) (key iv : string),
    head (glob fs_d output_dir "*.aaxc") = Some aaxc_file /\
    Path.with_suffix ".voucher" aaxc_file = Some voucher /\
    Path.with_suffix ".m4b" aaxc_file = Some target /\
    output_file = Path.div output_dir (Path.name target) /\
    launched w1 = launched w ++ [d; decrypt_cmd key iv aaxc_file output_file] /\
    files w1 = snd (subprocess_run (decrypt_cmd key iv aaxc_file output_file) fs_d) /\
    (exists out err,
        fst (subprocess_run (decrypt_cmd key iv aaxc_file output_file) fs_d)
        = Completed 0 out err) /\
    exists data, files w1 !! output_file = Some data /\ (0 < String.length data)%nat.
Proof.
  intros Hacq d fs_d.
  destruct (acquire_cases _ _ _ _ _ _ Hacq)
    as [(_ & Ho & _) | [(_ & e & Ho & _) | [(_ & _ & _ & Ho) | (Hv & Hok)]]];
    try discriminate Ho.
  - destruct Ho as [(e & Ho & _) | Ho]; discriminate Ho.
  - split; [exact Hv|].
    destruct Hok as (aaxc & voucher & target & key & iv & Hhead & Hvo & Hta & Hrest).
    cbv zeta in Hrest. destruct Hrest as (Hl & Hf & [Ho | (Ho & Hzero & Hdata)]);
      [discriminate Ho|].
    injection Ho as <- ->.
    exists voucher, target, key, iv. repeat split; assumption.
Qed.

(** X15: every failure that [process_book] handles ends the process with
    status 1: it never exits with another code, and never with 0. *)
Theorem process_book_exits_with_one (asin : string) (output_dir : Path.t)
    (keep_files : bool) (profile : option string) (w w' : world) (code : Z) :
  process_book asin output_dir keep_files profile w = (Exit code, w') ->
  code = 1.
Proof.
  unfold process_book. unfold bind at 1.
  destruct (acquire asin output_dir profile w) as [[[aaxc_file output_file]|e|c] w1] eqn:Hacq.
  - destruct (acquire_success _ _ _ _ _ _ _ Hacq)
      as (_ & voucher & _ & _ & _ & _ & Hvoucher & _).
    destruct (verify_and_finish_cases keep_files aaxc_file voucher output_file w1 Hvoucher)
      as (o & w2 & Hrun & _ & [(_ & -> & _) | (_ & -> & _)]);
      cbn [fst snd]; rewrite Hrun; congruence.
  - discriminate.
  - intros [= <- <-].
    destruct (acquire_cases _ _ _ _ _ _ Hacq)
      as [(_ & Ho & _) | [(_ & e & Ho & _) | [(_ & _ & _ & Ho) | (_ & Hok)]]].
    + congruence.
    + discriminate Ho.
    + destruct Ho as [(e & Ho & _) | Ho]; congruence.
    + destruct Hok as (? & ? & ? & ? & ? & _ & _ & _ & Hrest). cbv zeta in Hrest.
      destruct Hrest as (_ & _ & [Ho | (Ho & _)]); congruence.
Qed.

(** X16: an exception leaves [process_book] only when the output directory
    cannot be made or when the download client cannot be started; every
    later failure (voucher, transcoder, verification, cleanup) is caught. *)
Theorem process_book_raises_only_early (asin : string) (output_dir : Path.t)
    (keep_files : bool) (profile : option string) (w w' : world) (e : exn) :
  process_book asin output_dir keep_files profile w = (Raise e, w') ->
  validate_asin asin = true /\
  ((mkdir_parents output_dir w = (Raise e, w) /\ w' = w) \/
   (fst (subprocess_run (download_cmd asin output_dir profile) (files w)) = NotStarted e /\
    launched w' = launched w ++ [download_cmd asin output_dir profile])).
Proof.
  unfold process_book. unfold bind at 1.
  destruct (acquire asin output_dir profile w) as [[[aaxc_file output_file]|e1|c] w1] eqn:Hacq.
  - destruct (acquire_success _ _ _ _ _ _ _ Hacq)
      as (_ & voucher & _ & _ & _ & _ & Hvoucher & _).
    destruct (verify_and_finish_cases keep_files aaxc_file voucher output_file w1 Hvoucher)
      as (o & w2 & Hrun & _ & [(_ & -> & _) | (_ & -> & _)]);
      cbn [fst snd]; rewrite Hrun; congruence.
  - intros [= <- <-].
    destruct (acquire_cases _ _ _ _ _ _ Hacq)
      as [(_ & Ho & _) | [(Hv & e2 & Ho & Hw & Hmk) | [(Hv & Hl & _ & Ho) | (_ & Hok)]]].
    + discriminate Ho.
    + injection Ho as ->. split; [exact Hv|]. left. auto.
    + cbv zeta in Hl. destruct Ho as [(e2 & Ho & Hns) | Ho]; [|discriminate Ho].
      injection Ho as ->. split; [exact Hv|]. right. auto.
    + destruct Hok as (? & ? & ? & ? & ? & _ & _ & _ & Hrest). cbv zeta in Hrest.
      destruct Hrest as (_ & _ & [Ho | (Ho & _)]); discriminate Ho.
  - discriminate.
Qed.

(** X17: no stage is retried: whatever the outcome, [process_book] launches
    at most three commands, in this order: the download, the decryption of
    the artifact found, the validation of the decrypted file; a run that
    completes has launched all three. *)
Theorem process_book_launches_in_order (asin : string) (output_dir : Path.t)
    (keep_files : bool) (profile : option string) (w w' : world)
    (o : outcome unit) :
  process_book asin output_dir keep_files profile w = (o, w') ->
  let d := download_cmd asin output_dir profile in
  (launched w' = launched w /\ o <> Ret tt) \/
  (launched w' = launched w ++ [d] /\ o <> Ret tt) \/
  (exists (key iv : string) (aaxc_file output_file : Path.t),
      (launched w' = launched w ++ [d; decrypt_cmd key iv aaxc_file output_file]
       /\ o = Exit 1) \/
      launched w' = launched w ++ [d; decrypt_cmd key iv aaxc_file output_file;
                                   verify_cmd output_file]).
Proof.
  intros Hrun d. unfold process_book in Hrun. unfold bind at 1 in Hrun.
  destruct (acquire asin output_dir profile w) as [[[aaxc_file output_file]|e|c] w1] eqn:Hacq.
  - right. right.
    destruct (acquire_success _ _ _ _ _ _ _ Hacq)
      as (_ & voucher & target & key & iv & _ & Hvoucher & _ & _ & Hl & _).
    destruct (verify_and_finish_cases keep_files aaxc_file voucher output_file w1 Hvoucher)
      as (o2 & w2 & Hfin & Hl2 & _).
    cbn [fst snd] in Hrun. rewrite Hfin in Hrun. injection Hrun as <- <-.
    exists key, iv, aaxc_file, output_file. right.
    rewrite Hl2, Hl, <- app_assoc. reflexivity.
  - injection Hrun as <- <-.
    destruct (acquire_cases _ _ _ _ _ _ Hacq)
      as [(_ & Ho & _) | [(_ & e2 & Ho & Hw & _) | [(_ & Hl & _ & Ho) | (_ & Hok)]]].
    + discriminate Ho.
    + left. subst w1. split; [reflexivity | discriminate].
    + right. left. split; [exact Hl | discriminate].
    + destruct Hok as (? & ? & ? & ? & ? & _ & _ & _ & Hrest). cbv zeta in Hrest.
      destruct Hrest as (_ & _ & [Ho | (Ho & _)]); discriminate Ho.
  - injection Hrun as <- <-.
    destruct (acquire_cases _ _ _ _ _ _ Hacq)
      as [(_ & Ho & Hl & _) | [(_ & e2 & Ho & _) | [(_ & Hl & _ & Ho) | (_ & Hok)]]].
    + left. split; [exact Hl | discriminate].
    + discriminate Ho.
    + right. left. split; [exact Hl | discriminate].
    + right. right.
      destruct Hok as (aaxc & voucher & target & key & iv & _ & _ & _ & Hrest).
      cbv zeta in Hrest. destruct Hrest as (Hl & _ & [Ho | (Ho & _)]);
        [|discriminate Ho].
      exists key, iv, aaxc, (Path.div output_dir (Path.name target)). left.
      split; [exact Hl | now injection Ho as ->].
Qed.

(** X18: with [keep_files] set, a verified run removes nothing: it returns
    normally and the files are exactly as the validation run left them. *)
Theorem kept_files_are_untouched (asin : string) (output_dir : Path.t)
    (profile : option string) (w w1 : world) (aaxc_file output_file : Path.t) :
  acquire asin output_dir profile w = (Ret (aaxc_file, output_file), w1) ->
  fst (verify_decrypted_file output_file w1) = Ret true ->
  exists w',
    process_book asin output_dir true profile w = (Ret tt, w') /\
    files w' = snd (subprocess_run (verify_cmd output_file) (files w1)).
Proof.
  intros Hacq Hver.
  destruct (acquire_success _ _ _ _ _ _ _ Hacq)
    as (_ & voucher & _ & _ & _ & _ & Hvoucher & _).
  destruct (verify_and_finish_cases true aaxc_file voucher output_file w1 Hvoucher)
    as (o & w' & Hfin & _ & [(Hno & _) | (_ & -> & Hfiles)]); [congruence|].
  exists w'. unfold process_book. unfold bind at 1. rewrite Hacq. cbn [fst snd].
  split; assumption.
Qed.

(** X19: without [keep_files], a verified run returns normally with the
    artifact and its voucher gone; no file is created or rewritten, and a
    file that is none of the companions considered (the artifact, the
    voucher, the chapters file, the covers found) is left as it was. *)
Theorem verified_run_removes_companions (asin : string) (output_dir : Path.t)
    (profile : option string) (w w1 : world) (aaxc_file output_file : Path.t) :
  acquire asin output_dir profile w = (Ret (aaxc_file, output_file), w1) ->
  fst (verify_decrypted_file output_file w1) = Ret true ->
  let fs_v := snd (subprocess_run (verify_cmd output_file) (files w1)) in
  exists (voucher : Path.t) (w' : world),
    Path.with_suffix ".voucher" aaxc_file = Some voucher /\
    process_book asin output_dir false profile w = (Ret tt, w') /\
    files w' !! aaxc_file = None /\
    files w' !! voucher = None /\
    (forall p data, files w' !! p = Some data -> fs_v !! p = Some data) /\
    (forall p, ~ In p (related_candidates fs_v aaxc_file voucher) ->
               files w' !! p = fs_v !! p).
Proof.
  intros Hacq Hver fs_v.
  destruct (acquire_success _ _ _ _ _ _ _ Hacq)
    as (_ & voucher & _ & _ & _ & _ & Hvoucher & _).
  destruct (verify_and_finish_cases false aaxc_file voucher output_file w1 Hvoucher)
    as (o & w' & Hfin & _ & [(Hno & _) | (_ & -> & Hfiles)]); [congruence|].
  fold fs_v in Hfiles.
  exists voucher, w'. split; [exact Hvoucher|]. split.
  { unfold process_book. unfold bind at 1. rewrite Hacq. exact Hfin. }
  set (related := List.filter (fun f => bool_decide (is_Some (fs_v !! f)))
                    (related_candidates fs_v aaxc_file voucher)) in Hfiles.
  assert (Hgone : forall p, In p (related_candidates fs_v aaxc_file voucher) ->
                            files w' !! p = None).
  { intros p Hp. rewrite Hfiles.
    destruct (fs_v !! p) as [data|] eqn:Efile.
    - apply lookup_deleted_all. apply filter_In. split; [exact Hp|].
      apply bool_decide_eq_true_2. rewrite Efile. eauto.
    - destruct (in_dec (fun x y : Path.t => decide (x = y)) p related) as [Hin | Hout].
      + now apply lookup_deleted_all.
      + rewrite (proj2 (lookup_deleted_all related fs_v p) Hout). exact Efile. }
  assert (Hkept : forall p, ~ In p related -> files w' !! p = fs_v !! p).
  { intros p Hp. rewrite Hfiles. now apply lookup_deleted_all. }
  split; [apply Hgone; now left|].
  split; [apply Hgone; right; now left|].
  split.
  - intros p data Hp.
    destruct (in_dec (fun x y : Path.t => decide (x = y)) p related) as [Hin | Hout].
    + rewrite Hfiles, (proj1 (lookup_deleted_all related fs_v p) Hin) in Hp.
      discriminate.
    + now rewrite <- (Hkept p Hout).
  - intros p Hp. apply Hkept. intros Hin. apply Hp.
    apply filter_In in Hin. tauto.
Qed.

(** ** More on the fetching of the listing *)

Lemma parse_library_list_output_ret (text_output : string) (w : world) :
  exists library_data w',
    parse_library_list_output text_output w = (Ret library_data, w') /\
    files w' = files w /\ launched w' = launched w.
Proof.
  unfold parse_library_list_output.
  destruct (parse_lines_account (Py.split Py.LF (Py.strip text_output)) [] w)
    as (parsed & skipped & Hrun & _).
  eexists _, _. split; [exact Hrun|]. split; reflexivity.
Qed.

Lemma fetch_library_eq (profile : option string) (w : world) :
  fetch_library profile w
  = if rich_installed w then
      let ran := subprocess_run (listing_cmd profile) (files w) in
      let w1 := set_files (snd ran) (add_launched (listing_cmd profile) w) in
      match fst ran with
      | Completed rc out _ =>
          if rc =? 0 then
            match parse_library_list_output out w1 with
            | (Ret [], w2) =>
                (Exit 1,
                 add_output
                   (ConsolePrint
                      "[bold red]Error: No books were found in your library output.[/bold red]")
                   w2)
            | r => r
            end
          else
            match fst ran with
            | Completed _ _ err => (Exit 1, add_output (listing_failed err) w1)
            | NotStarted _ => (Exit 1, w1)
            end
      | NotStarted (CalledProcessError _ _ err) =>
          (Exit 1, add_output (listing_failed err) w1)
      | NotStarted e => (Raise e, w1)
      end
    else
      (Exit 1,
       add_output
         (Secho "Error: 'rich' library is required. Install with 'pip install rich'" "red")
         w).
Proof.
  unfold fetch_library, rich_available. unfold bind at 1.
  destruct (rich_installed w); cbn [negb]; [|reflexivity].
  cbv zeta. unfold bind at 1. unfold try_except at 1. unfold bind at 1.
  unfold run_command at 1. unfold bind at 1. unfold run at 1.
  fold (listing_cmd profile). cbn [fst snd].
  destruct (fst (subprocess_run (listing_cmd profile) (files w)))
    as [rc out err | e].
  - destruct (rc =? 0).
    + unfold ret at 1. cbn [fst].
      destruct (parse_library_list_output_ret out
                  (set_files (snd (subprocess_run (listing_cmd profile) (files w)))
                     (add_launched (listing_cmd profile) w)))
        as (library_data & w2 & Hparse & _).
      rewrite Hparse. destruct library_data; reflexivity.
    + reflexivity.
  - destruct e; reflexivity.
Qed.

(** X20: the listing is fetched with one command and fails fast: without
    [rich] nothing is launched and the run exits with status 1; a listing
    command that exits with another code than zero ends the run with status
    1 after its captured error output is shown; and a listing that is
    returned is never empty and was parsed from the output of a command
    that exited with zero. *)
Theorem fetch_library_fails_fast (profile : option string) (w : world) :
  let ran := subprocess_run (listing_cmd profile) (files w) in
  let w1 := set_files (snd ran) (add_launched (listing_cmd profile) w) in
  (rich_installed w = false ->
   exists w', fetch_library profile w = (Exit 1, w') /\
              launched w' = launched w /\ files w' = files w) /\
  (forall rc out err,
      rich_installed w = true -> fst ran = Completed rc out err -> rc <> 0 ->
      fetch_library profile w = (Exit 1, add_output (listing_failed err) w1)) /\
  (forall library_data w',
      fetch_library profile w = (Ret library_data, w') ->
      library_data <> [] /\ rich_installed w = true /\
      launched w' = launched w ++ [listing_cmd profile] /\
      files w' = snd ran /\
      exists out err,
        fst ran = Completed 0 out err /\
        parse_library_list_output out w1 = (Ret library_data, w')).
Proof.
  intros ran w1. rewrite fetch_library_eq. cbv zeta. fold ran. fold w1.
  split; [|split].
  - intros ->. eexists. split; [reflexivity|]. world_simpl. auto.
  - intros rc out err -> Hran Hrc. rewrite Hran.
    apply Z.eqb_neq in Hrc. now rewrite Hrc.
  - intros library_data w'.
    destruct (rich_installed w); [|discriminate].
    destruct (fst ran) as [rc out err | e] eqn:Hran.
    + destruct (rc =? 0) eqn:Hrc; [|discriminate].
      apply Z.eqb_eq in Hrc. subst rc.
      destruct (parse_library_list_output_ret out w1)
        as (parsed & w2 & Hparse & Hf & Hl).
      rewrite Hparse. destruct parsed as [|b parsed]; [discriminate|].
      intros [= <- <-]. split; [discriminate|]. split; [reflexivity|].
      rewrite Hl, Hf. subst w1. world_simpl.
      split; [reflexivity|]. split; [reflexivity|]. eauto.
    + destruct e; discriminate.
Qed.

End Pipeline.

(** * Worked examples *)

(** The sample transcoder exits with zero and leaves a five-byte file:
    decryption succeeds with the path of the [.m4b]. *)
Lemma decrypt_success_sample :
  exists result w',
    decrypt_audiobook (sample_run 0) sample_aaxc sample_dir
      (JString "AB12", JString "CD34") empty_world = (Ret result, w') /\
    files w' !! sample_m4b = Some "audio" /\
    result = (true, Some sample_m4b).
Proof.
  destruct (decrypt_success_iff (sample_run 0) sample_aaxc sample_dir sample_m4b
              "AB12" "CD34" empty_world eq_refl)
    as (result & w' & Hrun & Hfiles & Hyes & _).
  exists result, w'. split; [exact Hrun|]. split.
  - rewrite Hfiles. reflexivity.
  - apply Hyes. split.
    + eexists _, _. reflexivity.
    + exists "audio". split; [reflexivity | simpl; lia].
Defined.

(** A voucher without [key] is reported as lacking key/iv. *)
Lemma keyless_voucher_refused :
  get_aaxc_credentials (sample_loads keyless_voucher) sample_voucher_file voucher_world
  = (Raise (ClickException "Could not find key/iv in voucher file"), voucher_world).
Proof.
  apply (proj1 (proj2 (credentials_contract (sample_loads keyless_voucher)
                         sample_voucher_file voucher_world))
           "voucher" keyless_voucher);
    [reflexivity | reflexivity | reflexivity | left; reflexivity].
Defined.

(** A voucher whose [license_response] is [null] has no [key], yet the
    reader fails on the [get] call, not with the key/iv error. *)
Lemma null_license_response_attribute_error :
  absent_or_empty (nested_field refused_voucher "key") = true /\
  get_aaxc_credentials (sample_loads refused_voucher) sample_voucher_file voucher_world
  = (Raise (PyError "AttributeError" "'NoneType' object has no attribute 'get'"),
     voucher_world) /\
  get_aaxc_credentials (sample_loads refused_voucher) sample_voucher_file voucher_world
  <> (Raise (ClickException "Could not find key/iv in voucher file"), voucher_world).
Proof.
  assert (Hrun :
    get_aaxc_credentials (sample_loads refused_voucher) sample_voucher_file voucher_world
    = (Raise (PyError "AttributeError" "'NoneType' object has no attribute 'get'"),
       voucher_world)) by reflexivity.
  split; [reflexivity|]. split; [exact Hrun|]. rewrite Hrun. discriminate.
Qed.

(** The sample run with a validation that exits with 1: the decrypted file
    is gone and the run exits with status 1. *)
Lemma failed_verification_sample :
  exists w',
    process_book (sample_run 1) sample_glob (sample_loads sample_voucher)
      "B012345678" sample_dir false None empty_world = (Exit 1, w') /\
    files w' !! sample_m4b = None /\
    files w' !! sample_aaxc = Some "encrypted".
Proof.
  destruct (proj1 (failed_verification_removes_output (sample_run 1) sample_glob
                     (sample_loads sample_voucher) "B012345678" sample_dir false
                     None empty_world)
              sample_aaxc sample_m4b
              (snd (acquire (sample_run 1) sample_glob (sample_loads sample_voucher)
                      "B012345678" sample_dir None empty_world)))
    as (w' & Hrun & Hgone & Hfiles & _).
  - vm_compute. reflexivity.
  - vm_compute. reflexivity.
  - exists w'. split; [exact Hrun|]. split; [exact Hgone|].
    rewrite Hfiles. vm_compute. reflexivity.
Defined.



(** An identifier that starts with [A] stops the run at once. *)
Lemma invalid_asin_sample :
  process_book (sample_run 0) sample_glob (sample_loads sample_voucher)
    "A012345678" sample_dir false None empty_world
  = (Exit 1, add_output (Secho "Error: Invalid ASIN format: A012345678" "red") empty_world).
Proof.
  assert (Hfirst : String.get 0 "A012345678" <> Some "B"%char) by discriminate.
  exact (proj1 (proj2 (invalid_asin_fails_fast (sample_run 0) sample_glob
                         (sample_loads sample_voucher) "A012345678" sample_dir
                         false None empty_world (or_intror Hfirst)))).
Defined.

(** With three entries shown by twos, [n] on page 0 leads to page 1, which
    is within the range. *)
Lemma second_page_in_range :
  0 <= 1 <= - (- Z.of_nat (length sample_library) / 2) - 1.
Proof.
  apply (proj1 (page_index_in_range_and_clamped (sample_run 0) sample_glob
                  (sample_loads sample_voucher) sample_dir false None)
           sample_library 2 1); [discriminate | lia |].
  apply (reach_turn _ _ _ _ _ _ _ _ 0 1
           (World ∅ [] [] ["n"] [] true)
           (snd (browse_iteration (sample_run 0) sample_glob
                   (sample_loads sample_voucher) sample_dir false None
                   sample_library 2 0 (World ∅ [] [] ["n"] [] true))));
    [apply reach_start | vm_compute; reflexivity].
Defined.


(** Oldest-first is configured and the operator declines: the listing is
    reversed and newest-first is announced. *)
Lemma sort_toggle_sample :
  apply_sort (Config (Some "oldest_first") None) sample_library
    (World ∅ [] [false] [] [] true)
  = (Ret (rev sample_library),
     World ∅ [AskConfirm "Sort by 'oldest first'?"; Echo "Sorting by newest first."]
       [] [] [] true).
Proof.
  apply (proj2 (proj2 (sort_toggle_single_reversal "oldest_first"
                         (Config (Some "oldest_first") None) false []
                         sample_library (World ∅ [] [false] [] [] true)
                         (or_intror eq_refl) eq_refl eq_refl))).
Defined.


(** Spaces and punctuation after the leading [B] do not matter. *)
Lemma validate_asin_sample : validate_asin "B 2!4:6 8," = true.
Proof.
  apply (proj1 validate_asin_accepts_any_tail "B 2!4:6 8,"); reflexivity.
Defined.

(** * Further worked examples *)

(** The sample listing on display, with the replies still to come. *)
Definition asking (replies : list string) : world :=
  World ∅ [] [] replies [] true.

(** The superscript two, which [isdigit] accepts and [int] refuses. *)
Definition superscript_two : string := String "178"%char "".

Ltac no_such_char :=
  simpl; intros H; repeat (destruct H as [H | H]; [discriminate H|]); exact H.

(** [Q] typed on the first page of the sample listing. *)
Lemma quit_sample :
  exists w',
    (forall fuel : nat,
        browse_loop (sample_run 0) sample_glob (sample_loads sample_voucher)
          (S fuel) sample_dir false None sample_library 10 0 (asking ["Q"])
        = Some (Ret tt, w')) /\
    last (output w') = Some (Echo "Exiting library browser.") /\
    launched w' = [] /\ files w' = ∅ /\ prompts w' = [].
Proof.
  assert (Hpage : Py.slice sample_library (0 * 10) (0 * 10 + 10) <> [])
    by discriminate.
  exact (quit_ends_the_browser (sample_run 0) sample_glob
           (sample_loads sample_voucher) sample_dir false None sample_library
           10 0 "Q" [] (asking ["Q"]) Hpage eq_refl eq_refl).
Defined.

(** [n] then [p] on the first of two pages of the sample listing. *)
Lemma next_then_previous_sample :
  forall fuel : nat,
    browse_loop (sample_run 0) sample_glob (sample_loads sample_voucher)
      (S (S fuel)) sample_dir false None sample_library 2 0 (asking ["n"; "p"])
    = browse_loop (sample_run 0) sample_glob (sample_loads sample_voucher)
        fuel sample_dir false None sample_library 2 0
        (page_shown sample_library 2 (0 + 1) []
           (page_shown sample_library 2 0 ["p"] (asking ["n"; "p"]))).
Proof.
  assert (Hps : 0 < 2) by lia.
  assert (H0 : 0 <= 0) by lia.
  assert (Hin : 0 * 2 < Z.of_nat (length sample_library)) by (simpl; lia).
  assert (Hnext : 0 * 2 + 2 < Z.of_nat (length sample_library)) by (simpl; lia).
  exact (proj1 (next_and_previous_cancel (sample_run 0) sample_glob
                  (sample_loads sample_voucher) sample_dir false None
                  sample_library 2 0 "n" "p" [] (asking ["n"; "p"])
                  Hps H0 Hin eq_refl)
           Hnext eq_refl eq_refl).
Defined.

(** [help] is not a command of the browser. *)
Lemma other_input_sample :
  forall fuel : nat,
    browse_loop (sample_run 0) sample_glob (sample_loads sample_voucher)
      (S fuel) sample_dir false None sample_library 10 0 (asking ["help"])
    = browse_loop (sample_run 0) sample_glob (sample_loads sample_voucher)
        fuel sample_dir false None sample_library 10 0
        (add_output (Secho "Invalid input." "yellow")
           (page_shown sample_library 10 0 [] (asking ["help"]))).
Proof.
  assert (Hpage : Py.slice sample_library (0 * 10) (0 * 10 + 10) <> [])
    by discriminate.
  assert (Hn : Py.lower "help" <> "n") by discriminate.
  assert (Hp : Py.lower "help" <> "p") by discriminate.
  assert (Hq : Py.lower "help" <> "q") by discriminate.
  exact (other_input_is_refused (sample_run 0) sample_glob
           (sample_loads sample_voucher) sample_dir false None sample_library
           10 0 "help" [] (asking ["help"]) Hpage eq_refl eq_refl Hn Hp Hq).
Defined.

(** Two replies are pending: three turns are enough. *)
Lemma browse_loop_terminates_sample :
  is_Some (browse_loop (sample_run 0) sample_glob (sample_loads sample_voucher)
             3 sample_dir false None sample_library 2 0 (asking ["n"; "zz"])).
Proof.
  assert (Hps : 0 < 2) by lia.
  assert (H0 : 0 <= 0) by lia.
  assert (Hin : 0 * 2 < Z.of_nat (length sample_library)) by (simpl; lia).
  assert (Hfuel : (length (prompts (asking ["n"; "zz"])) < 3)%nat) by (simpl; lia).
  exact (browse_loop_terminates (sample_run 0) sample_glob
           (sample_loads sample_voucher) sample_dir false None sample_library
           2 3 0 (asking ["n"; "zz"]) Hps H0 Hin Hfuel).
Defined.

(** A superscript two typed at the prompt. *)
Lemma superscript_sample :
  forall fuel : nat,
    browse_loop (sample_run 0) sample_glob (sample_loads sample_voucher)
      (S fuel) sample_dir false None sample_library 10 0 (asking [superscript_two])
    = Some (Raise (PyError "ValueError"
                     ("invalid literal for int() with base 10: '"
                      +:+ Py.lower superscript_two +:+ "'")),
            page_shown sample_library 10 0 [] (asking [superscript_two])).
Proof.
  assert (Hpage : Py.slice sample_library (0 * 10) (0 * 10 + 10) <> [])
    by discriminate.
  exact (superscript_digits_raise (sample_run 0) sample_glob
           (sample_loads sample_voucher) sample_dir false None sample_library
           10 0 superscript_two [] (asking [superscript_two])
           Hpage eq_refl eq_refl eq_refl).
Defined.

(** [N] is read as [n]. *)
Lemma capital_reply_sample :
  browse_iteration (sample_run 0) sample_glob (sample_loads sample_voucher)
    sample_dir false None sample_library 2 0 (asking ["N"])
  = browse_iteration (sample_run 0) sample_glob (sample_loads sample_voucher)
      sample_dir false None sample_library 2 0
      (set_prompts [Py.lower "N"] (asking ["N"])).
Proof.
  assert (Hpage : Py.slice sample_library (0 * 2) (0 * 2 + 2) <> [])
    by discriminate.
  exact (replies_are_case_insensitive (sample_run 0) sample_glob
           (sample_loads sample_voucher) sample_dir false None sample_library
           2 0 "N" [] (asking ["N"]) Hpage eq_refl).
Defined.

(** Two entries, the second with an empty title, written and read back. *)
Lemma listing_round_trip_sample :
  parse_library_list_output
    (Py.join NL (map listing_line
                   [("B012345678", "Jane Doe", "My Book: A Subtitle");
                    ("B000000002", "Bob", "")])) empty_world
  = (Ret [Book "B012345678" "My Book: A Subtitle" [Author "Jane Doe"];
          Book "B000000002" "" [Author "Bob"]], empty_world).
Proof.
  assert (Htidy : Forall tidy_entry
                    [("B012345678", "Jane Doe", "My Book: A Subtitle");
                     ("B000000002", "Bob", "")]).
  { repeat constructor; try reflexivity; no_such_char. }
  exact (parse_reads_back_a_listing _ empty_world Htidy).
Defined.

(** A voucher whose key is the number 5. *)
Lemma numeric_key_sample :
  exists w',
    decrypt_audiobook (sample_run 0) sample_aaxc sample_dir
      (JInt 5, JString "CD34") empty_world = (Ret (false, None), w') /\
    launched w' = [] /\ files w' = ∅ /\ length (output w') = 1%nat.
Proof.
  exact (decrypt_refuses_non_string_credentials (sample_run 0) sample_aaxc
           sample_dir sample_m4b (JInt 5, JString "CD34") empty_world
           eq_refl eq_refl).
Defined.

(** The companions of the sample artifact when only the voucher is left. *)
Lemma related_files_sample :
  exists related w',
    get_related_files sample_glob sample_aaxc voucher_world = (Ret related, w') /\
    In sample_voucher_file related /\ ~ In sample_aaxc related.
Proof.
  destruct (related_files_exist sample_glob sample_aaxc sample_voucher_file
              voucher_world eq_refl)
    as (related & w' & Hrun & _ & _ & Hexist & Hall & _ & Hvoucher).
  exists related, w'. split; [exact Hrun|]. split.
  - apply Hall; [exact Hvoucher|]. vm_compute. eauto.
  - intros Hin. apply Hexist in Hin. vm_compute in Hin.
    destruct Hin as [x Hx]. discriminate Hx.
Defined.

(** A tool set in which every command exits with 1. *)
Definition failing_run (cmd : list string) (fs : gmap Path.t string)
  : run_result * gmap Path.t string :=
  (Completed 1 "" "denied", fs).

(** A download that is refused ends the run with exit code 1. *)
Lemma refused_download_exits_with_one :
  exists code w',
    process_book failing_run sample_glob (sample_loads sample_voucher)
      "B012345678" sample_dir false None empty_world = (Exit code, w') /\
    code = 1.
Proof.
  pose (r := process_book failing_run sample_glob (sample_loads sample_voucher)
               "B012345678" sample_dir false None empty_world).
  assert (Hfst : fst r = Exit 1) by (vm_compute; reflexivity).
  assert (Hrun : process_book failing_run sample_glob (sample_loads sample_voucher)
                   "B012345678" sample_dir false None empty_world
                 = (Exit 1, snd r)) by (rewrite <- Hfst; apply surjective_pairing).
  exists 1, (snd r). split; [exact Hrun|].
  exact (process_book_exits_with_one failing_run sample_glob
           (sample_loads sample_voucher) "B012345678" sample_dir false None
           empty_world (snd r) 1 Hrun).
Defined.

(** With a profile the sample tool set does not know the download command:
    the error of the launch leaves [process_book]. *)
Lemma unknown_command_raises :
  exists e w',
    process_book (sample_run 0) sample_glob (sample_loads sample_voucher)
      "B012345678" sample_dir false (Some "work") empty_world = (Raise e, w') /\
    e = PyError "FileNotFoundError" "No such file or directory" /\
    launched w' = [download_cmd "B012345678" sample_dir (Some "work")].
Proof.
  pose (r := process_book (sample_run 0) sample_glob (sample_loads sample_voucher)
               "B012345678" sample_dir false (Some "work") empty_world).
  pose (e := PyError "FileNotFoundError" "No such file or directory").
  assert (Hfst : fst r = Raise e) by (vm_compute; reflexivity).
  assert (Hrun : process_book (sample_run 0) sample_glob (sample_loads sample_voucher)
                   "B012345678" sample_dir false (Some "work") empty_world
                 = (Raise e, snd r)) by (rewrite <- Hfst; apply surjective_pairing).
  exists e, (snd r). split; [exact Hrun|]. split; [reflexivity|].
  destruct (process_book_raises_only_early (sample_run 0) sample_glob
              (sample_loads sample_voucher) "B012345678" sample_dir false
              (Some "work") empty_world (snd r) e Hrun)
    as [_ [[Hmkdir _] | [_ Hlaunched]]].
  - vm_compute in Hmkdir. discriminate Hmkdir.
  - exact Hlaunched.
Defined.

(** The commands of a run whose validation fails. *)
Lemma launch_order_sample :
  exists o w',
    process_book (sample_run 1) sample_glob (sample_loads sample_voucher)
      "B012345678" sample_dir false None empty_world = (o, w') /\
    let d := download_cmd "B012345678" sample_dir None in
    (launched w' = launched empty_world /\ o <> Ret tt) \/
    (launched w' = launched empty_world ++ [d] /\ o <> Ret tt) \/
    exists key iv aaxc_file output_file,
      (launched w'
       = launched empty_world ++ [d; decrypt_cmd key iv aaxc_file output_file]
       /\ o = Exit 1) \/
      launched w'
      = launched empty_world
        ++ [d; decrypt_cmd key iv aaxc_file output_file; verify_cmd output_file].
Proof.
  pose (r := process_book (sample_run 1) sample_glob (sample_loads sample_voucher)
               "B012345678" sample_dir false None empty_world).
  assert (Hrun : process_book (sample_run 1) sample_glob (sample_loads sample_voucher)
                   "B012345678" sample_dir false None empty_world
                 = (fst r, snd r)) by apply surjective_pairing.
  exists (fst r), (snd r). split; [exact Hrun|].
  exact (process_book_launches_in_order (sample_run 1) sample_glob
           (sample_loads sample_voucher) "B012345678" sample_dir false None
           empty_world (snd r) (fst r) Hrun).
Defined.

(** A verified run that keeps its files leaves all three behind. *)
Lemma kept_files_sample :
  exists w',
    process_book (sample_run 0) sample_glob (sample_loads sample_voucher)
      "B012345678" sample_dir true None empty_world = (Ret tt, w') /\
    files w' !! sample_aaxc = Some "encrypted" /\
    files w' !! sample_voucher_file = Some "voucher" /\
    files w' !! sample_m4b = Some "audio".
Proof.
  pose (w1 := snd (acquire (sample_run 0) sample_glob (sample_loads sample_voucher)
                     "B012345678" sample_dir None empty_world)).
  assert (Hfst : fst (acquire (sample_run 0) sample_glob (sample_loads sample_voucher)
                        "B012345678" sample_dir None empty_world)
                 = Ret (sample_aaxc, sample_m4b)) by (vm_compute; reflexivity).
  assert (Hacq : acquire (sample_run 0) sample_glob (sample_loads sample_voucher)
                   "B012345678" sample_dir None empty_world
                 = (Ret (sample_aaxc, sample_m4b), w1))
    by (rewrite <- Hfst; apply surjective_pairing).
  assert (Hver : fst (verify_decrypted_file (sample_run 0) sample_m4b w1) = Ret true)
    by (vm_compute; reflexivity).
  destruct (kept_files_are_untouched (sample_run 0) sample_glob
              (sample_loads sample_voucher) "B012345678" sample_dir None
              empty_world w1 sample_aaxc sample_m4b Hacq Hver)
    as (w' & Hrun & Hfiles).
  exists w'. split; [exact Hrun|].
  rewrite Hfiles. vm_compute. repeat split.
Defined.

(** A verified run that does not keep its files leaves the audio only. *)
Lemma companions_removed_sample :
  exists w',
    process_book (sample_run 0) sample_glob (sample_loads sample_voucher)
      "B012345678" sample_dir false None empty_world = (Ret tt, w') /\
    files w' !! sample_aaxc = None /\
    files w' !! sample_voucher_file = None /\
    files w' !! sample_m4b = Some "audio".
Proof.
  pose (w1 := snd (acquire (sample_run 0) sample_glob (sample_loads sample_voucher)
                     "B012345678" sample_dir None empty_world)).
  assert (Hfst : fst (acquire (sample_run 0) sample_glob (sample_loads sample_voucher)
                        "B012345678" sample_dir None empty_world)
                 = Ret (sample_aaxc, sample_m4b)) by (vm_compute; reflexivity).
  assert (Hacq : acquire (sample_run 0) sample_glob (sample_loads sample_voucher)
                   "B012345678" sample_dir None empty_world
                 = (Ret (sample_aaxc, sample_m4b), w1))
    by (rewrite <- Hfst; apply surjective_pairing).
  assert (Hver : fst (verify_decrypted_file (sample_run 0) sample_m4b w1) = Ret true)
    by (vm_compute; reflexivity).
  destruct (verified_run_removes_companions (sample_run 0) sample_glob
              (sample_loads sample_voucher) "B012345678" sample_dir None
              empty_world w1 sample_aaxc sample_m4b Hacq Hver)
    as (voucher & w' & Hvoucher & Hrun & Haaxc & Hgone & _ & Hother).
  assert (Hsample : Path.with_suffix ".voucher" sample_aaxc = Some sample_voucher_file)
    by reflexivity.
  assert (Hv : voucher = sample_voucher_file) by congruence.
  subst voucher.
  exists w'. split; [exact Hrun|]. split; [exact Haaxc|]. split; [exact Hgone|].
  rewrite (Hother sample_m4b).
  - vm_compute. reflexivity.
  - vm_compute. intros H. repeat (destruct H as [H | H]; [discriminate H|]). exact H.
Defined.
